(** * Intern_AI backend: the signup / career-analysis request handler

    A shallow embedding of [frontend/backend/main.py]: the module-level
    client setup, the helper [call_groq_ai] and the FastAPI handler
    [signup_student], followed by the properties of the request pipeline.

    Modelling conventions.
    - A Python [str] is a Rocq [string], one [ascii] per character.
    - Values that travel through [json] are the inductive [pyval].
    - The filesystem is a finite map from locations to file contents plus
      the set of locations of directories, the working directory and the
      file size limit of the process; path strings are resolved against it
      as POSIX does.  It is private to the handler while a request runs.
    - The two remote services, the Azure client constructor and [json.loads]
      are fields of [Config]: functions from what the code passes to what the
      code gets back, either a value or a raised exception.
    - The handler runs in a state-and-exception monad whose state holds the
      filesystem, the observable events (printed lines and outbound calls)
      and the two local variables that the [try] block assigns. *)

From Stdlib Require Import ZArith Ascii String List Lia.
From Stdlib Require Import Floats.SpecFloat.
From stdpp Require Import base gmap strings list.

Import ListNotations.
Set Warnings "-register-all".
Local Open Scope Z_scope.

(** ** Python values *)

Module Py.

(** Exceptions the pipeline can meet; every one is a subclass of
    [Exception].  [ExternalError] stands for whatever a remote call or an
    SDK constructor raises. *)
Inductive errno : Type := ENAMETOOLONG | EFBIG.

Inductive PyExc : Type :=
| FileNotFoundError (path : string)
| IsADirectoryError (path : string)
| NotADirectoryError (path : string)
| OSError (code : errno)
| ValueError
| UnboundLocalError (name : string)
| KeyError (key : string)
| IndexError
| TypeError
| JSONDecodeError
| ExternalError (msg : string).

(** What [json.loads] and [response.json()] can produce, and what the
    handler returns: [None], [bool], [int], [float], [str], [list] and
    [dict] with string keys (insertion order kept, keys pairwise distinct
    in a well-formed value). *)
Inductive pyval : Type :=
| PNone
| PBool (b : bool)
| PInt (n : Z)
| PFloat (f : spec_float)
| PStr (s : string)
| PList (items : list pyval)
| PDict (entries : list (string * pyval)).

Definition result (A : Type) : Type := (PyExc + A)%type.

(** [bool(v)], as used by [if api_result:]. *)
Definition truthy (v : pyval) : bool :=
  match v with
  | PNone => false
  | PBool b => b
  | PInt n => negb (n =? 0)
  | PFloat (S754_zero _) => false
  | PFloat _ => true
  | PStr EmptyString => false
  | PStr _ => true
  | PList [] => false
  | PList _ => true
  | PDict [] => false
  | PDict _ => true
  end.

(** Truth value of an environment variable read with [os.getenv]:
    [None] and the empty string are false. *)
Definition truthy_env (v : option string) : bool :=
  match v with
  | Some (String _ _) => true
  | _ => false
  end.

Fixpoint dict_get (entries : list (string * pyval)) (key : string) : option pyval :=
  match entries with
  | [] => None
  | (k, v) :: rest => if String.eqb k key then Some v else dict_get rest key
  end.

(** [v[key]] for a string key. *)
Definition getitem_str (v : pyval) (key : string) : result pyval :=
  match v with
  | PDict entries =>
      match dict_get entries key with
      | Some x => inr x
      | None => inl (KeyError key)
      end
  | _ => inl TypeError
  end.

Fixpoint str_nth (s : string) (i : nat) : option ascii :=
  match s, i with
  | EmptyString, _ => None
  | String c _, O => Some c
  | String _ s', S i' => str_nth s' i'
  end.

(** [v[i]] for a non-negative integer index.  A dict built from JSON has
    only string keys, so an integer key is always missing. *)
Definition getitem_int (v : pyval) (i : nat) : result pyval :=
  match v with
  | PList items =>
      match nth_error items i with
      | Some x => inr x
      | None => inl IndexError
      end
  | PStr s =>
      match str_nth s i with
      | Some c => inr (PStr (String c EmptyString))
      | None => inl IndexError
      end
  | PDict _ => inl (KeyError "0")
  | _ => inl TypeError
  end.

(** Sequencing of expressions that may raise. *)
Definition and_then {A B} (r : result A) (k : A -> result B) : result B :=
  match r with
  | inr a => k a
  | inl e => inl e
  end.

End Py.
Export Py.

(** ** Text helpers *)

Module Text.

Definition LF : string := String (ascii_of_nat 10) EmptyString.

(** The character that delimits Python string literals. *)
Definition QUOTE : ascii := ascii_of_nat 34.

(** Template text is written with apostrophes where the source has
    double quotes; [dq] puts the double quotes back. *)
Fixpoint dq (s : string) : string :=
  match s with
  | EmptyString => EmptyString
  | String c s' =>
      String (if Ascii.eqb c "'"%char then QUOTE else c) (dq s')
  end.

(** [s[:n]] *)
Fixpoint str_take (n : nat) (s : string) : string :=
  match n, s with
  | O, _ => EmptyString
  | S _, EmptyString => EmptyString
  | S n', String c s' => String c (str_take n' s')
  end.

Fixpoint str_prefix (p s : string) : bool :=
  match p, s with
  | EmptyString, _ => true
  | String _ _, EmptyString => false
  | String a p', String b s' => Ascii.eqb a b && str_prefix p' s'
  end.

(** [needle in s] *)
Fixpoint str_contains (needle s : string) : bool :=
  str_prefix needle s ||
  match s with
  | EmptyString => false
  | String _ s' => str_contains needle s'
  end.

(** Each line followed by a newline. *)
Fixpoint unlines (ls : list string) : string :=
  match ls with
  | [] => EmptyString
  | l :: rest => l +:+ LF +:+ unlines rest
  end.

End Text.
Export Text.

(** ** The filesystem seen by [open], [os.path.exists] and [os.remove] *)

(** Files and directories are kept by location: the list of names that
    leads to them from the root.  Path strings are resolved as POSIX does
    for a process whose working directory is [cwd]: component by
    component, with [.], [..], repeated and trailing slashes, through
    directories that have to exist.  There are no symbolic links and every
    directory can be searched and written by the process.  Lengths are
    counted in characters of the [string], which is the length in bytes
    of an ASCII name. *)

Module FS.

Record t : Type := mk {
  files : gmap (list string) (list Byte.byte);
  dirs : gset (list string);
  cwd : list string;
  max_file_size : option nat
}.

Definition set_files (f : t) (m : gmap (list string) (list Byte.byte)) : t :=
  mk m (dirs f) (cwd f) (max_file_size f).

(** Limits of the platform, in bytes. *)
Definition NAME_MAX : nat := 255.
Definition PATH_MAX : nat := 4096.

Definition is_empty (s : string) : bool :=
  match s with
  | EmptyString => true
  | String _ _ => false
  end.

Fixpoint has_nul (p : string) : bool :=
  match p with
  | EmptyString => false
  | String c p' => Ascii.eqb c (ascii_of_nat 0) || has_nul p'
  end.

(** The pieces of a path between its slashes; never the empty list. *)
Fixpoint components (p : string) : list string :=
  match p with
  | EmptyString => [EmptyString]
  | String c p' =>
      if Ascii.eqb c "/"%char then EmptyString :: components p'
      else match components p' with
           | [] => [String c EmptyString]
           | first :: rest => String c first :: rest
           end
  end.

Definition is_dir (f : t) (l : list string) : bool := bool_decide (l ∈ dirs f).

Definition is_file (f : t) (l : list string) : bool :=
  match files f !! l with
  | Some _ => true
  | None => false
  end.

(** The directory above; the root is its own parent. *)
Definition parent (l : list string) : list string := removelast l.

Definition too_long (name : string) : bool :=
  (NAME_MAX <? String.length name)%nat.

(** One step of the walk: from directory [cur] into component [c] of
    path [p]. *)
Definition enter (p : string) (f : t) (cur : list string) (c : string)
    : result (list string) :=
  if String.eqb c "." then inr cur
  else if String.eqb c ".." then inr (parent cur)
  else if too_long c then inl (OSError ENAMETOOLONG)
  else if is_dir f (cur ++ [c]) then inr (cur ++ [c])
  else if is_file f (cur ++ [c]) then inl (NotADirectoryError p)
  else inl (FileNotFoundError p).

(** What the last component of a path is: a plain name, a plain name
    followed by slashes, or [.] or [..] (or nothing at all). *)
Inductive last : Type :=
| LastNorm (name : string)
| LastSlash (name : string)
| LastDot.

Definition classify (c : string) (rest : list string) : last :=
  if String.eqb c "." || String.eqb c ".." then LastDot
  else match rest with
       | [] => LastNorm c
       | _ :: _ => LastSlash c
       end.

(** Walks every component but the last and returns the directory reached
    together with the last component. *)
Fixpoint walk (p : string) (f : t) (cur : list string) (cs : list string)
    : result (list string * last) :=
  match cs with
  | [] => inr (cur, LastDot)
  | c :: rest =>
      if is_empty c then walk p f cur rest
      else if forallb is_empty rest then inr (cur, classify c rest)
      else match enter p f cur c with
           | inr cur' => walk p f cur' rest
           | inl e => inl e
           end
  end.

(** Python refuses a path with a NUL character before any system call;
    the kernel refuses the empty path and a path of [PATH_MAX] bytes or
    more before it walks. *)
Definition resolve (p : string) (f : t) : result (list string * last) :=
  if has_nul p then inl ValueError
  else if is_empty p then inl (FileNotFoundError p)
  else if (PATH_MAX <=? String.length p)%nat then inl (OSError ENAMETOOLONG)
  else walk p f (if str_prefix "/" p then [] else cwd f) (components p).

(** [open(p, "wb")]: creates the file or truncates it, and returns its
    location, which stands for the open file object.  With a trailing
    slash, or on [.], [..] or a directory, it raises. *)
Definition open_wb (p : string) (f : t) : result (list string) * t :=
  match resolve p f with
  | inl e => (inl e, f)
  | inr (cur, LastNorm name) =>
      if too_long name then (inl (OSError ENAMETOOLONG), f)
      else if is_dir f (cur ++ [name]) then (inl (IsADirectoryError p), f)
      else (inr (cur ++ [name]),
            set_files f (<[cur ++ [name] := []]> (files f)))
  | inr (_, _) => (inl (IsADirectoryError p), f)
  end.

Definition fits (f : t) (data : list Byte.byte) : bool :=
  match max_file_size f with
  | None => true
  | Some n => (length data <=? n)%nat
  end.

(** Writing [data] into the open file at [l] and closing it.  When the
    data exceed the file size limit the write raises and the file keeps
    what was written up to the limit. *)
Definition write (l : list string) (data : list Byte.byte) (f : t)
    : result unit * t :=
  match max_file_size f with
  | Some n =>
      if (n <? length data)%nat
      then (inl (OSError EFBIG), set_files f (<[l := firstn n data]> (files f)))
      else (inr tt, set_files f (<[l := data]> (files f)))
  | None => (inr tt, set_files f (<[l := data]> (files f)))
  end.

(** [open] and then [write]: the outcome and the filesystem left. *)
Definition save (p : string) (data : list Byte.byte) (f : t) : result unit * t :=
  match open_wb p f with
  | (inr l, f1) => write l data f1
  | (inl e, f1) => (inl e, f1)
  end.

(** The filesystem after a complete [save], or the exception that
    stopped it. *)
Definition write_file (p : string) (data : list Byte.byte) (f : t) : result t :=
  match save p data f with
  | (inr _, f2) => inr f2
  | (inl e, _) => inl e
  end.

(** The entry a path denotes when it is opened for reading, tested or
    removed. *)
Definition entry_of (p : string) (f : t) : result (list string * bool) :=
  match resolve p f with
  | inl e => inl e
  | inr (cur, LastNorm name) =>
      if too_long name then inl (OSError ENAMETOOLONG)
      else inr (cur ++ [name], false)
  | inr (cur, LastSlash name) =>
      if too_long name then inl (OSError ENAMETOOLONG)
      else inr (cur ++ [name], true)
  | inr (_, LastDot) => inl (IsADirectoryError p)
  end.

(** [open(p, "rb")] followed by reading everything. *)
Definition read_file (p : string) (f : t) : result (list Byte.byte) :=
  match entry_of p f with
  | inl e => inl e
  | inr (l, slash) =>
      if is_dir f l then inl (IsADirectoryError p)
      else match files f !! l with
           | Some data => if slash then inl (NotADirectoryError p) else inr data
           | None => inl (FileNotFoundError p)
           end
  end.

(** [os.path.exists(p)]: true for files and for directories, false when
    the path cannot be resolved.  A path that ends in [.] or [..] denotes
    a directory reached by the walk, which exists. *)
Definition exists_ (p : string) (f : t) : bool :=
  match entry_of p f with
  | inl (IsADirectoryError _) => true
  | inl _ => false
  | inr (l, slash) => is_dir f l || (negb slash && is_file f l)
  end.

(** [os.remove(p)]: removes a file, raises on a directory or on a
    missing path. *)
Definition remove (p : string) (f : t) : result t :=
  match entry_of p f with
  | inl e => inl e
  | inr (l, slash) =>
      if is_dir f l then inl (IsADirectoryError p)
      else match files f !! l with
           | Some _ =>
               if slash then inl (NotADirectoryError p)
               else inr (set_files f (delete l (files f)))
           | None => inl (FileNotFoundError p)
           end
  end.

End FS.

(** ** Requests, collaborators and configuration *)

(** [UploadFile]: the client-supplied file name (absent when the part
    carries none) and the bytes of the stream. *)
Record UploadFile : Type := {
  filename : option string;
  file : list Byte.byte
}.

(** The form fields of [POST /signup-student]. *)
Record SignupRequest : Type := {
  full_name : string;
  email : string;
  selected_domains : string;
  degree : string;
  resume : UploadFile
}.

(** A [requests.Response]: status code, body text and what [.json()]
    does on it. *)
Record HttpResponse : Type := {
  status_code : Z;
  text : string;
  json : result pyval
}.

(** A constructed [DocumentIntelligenceClient]. *)
Record Client : Type := {
  client_endpoint : string;
  client_credential : string
}.

(** The process environment and the behaviour of everything outside the
    module.  [begin_analyze_document c model doc content_type] is the
    whole of [c.begin_analyze_document(...).result().content]; a result
    without textual content counts as a failure of the call. *)
Record Config : Type := {
  GROQ_API_KEY : option string;
  DOC_INTEL_ENDPOINT : option string;
  DOC_INTEL_KEY : option string;
  DocumentIntelligenceClient : string -> string -> result Client;
  begin_analyze_document :
    Client -> string -> list Byte.byte -> string -> result string;
  requests_post : string -> list (string * string) -> pyval -> result HttpResponse;
  json_loads : string -> result pyval
}.

(** Lines written to standard output. *)
Inductive LogLine : Type :=
| LogProcessing (name : string)
| LogReadingPdf
| LogAskingGroq
| LogGroqError (status : Z) (body : string)
| LogGroqSuccess
| LogAIError (e : PyExc).

(** Observable events of one request, oldest first. *)
Inductive Event : Type :=
| Printed (line : LogLine)
| AnalyzeDocument (c : Client) (model : string) (doc : list Byte.byte)
    (content_type : string) (res : result string)
| HttpPost (url : string) (headers : list (string * string)) (body : pyval)
    (res : result HttpResponse).

(** ** The handler's monad: state that survives exceptions *)

(** [resume_text] and [ai_analysis] are the two locals of [signup_student]
    that the [try] block reads or assigns; [None] is an unbound local. *)
Record State : Type := mkState {
  fs : FS.t;
  events : list Event;
  resume_text : option string;
  ai_analysis : option pyval
}.

Definition M (A : Type) : Type := State -> result A * State.

Definition ret {A} (a : A) : M A := fun s => (inr a, s).

Definition raise {A} (e : PyExc) : M A := fun s => (inl e, s).

Definition bind {A B} (m : M A) (k : A -> M B) : M B :=
  fun s =>
    match m s with
    | (inr a, s') => k a s'
    | (inl e, s') => (inl e, s')
    end.

#[global] Instance M_ret : MRet M := @ret.
#[global] Instance M_bind : MBind M := fun A B k m => bind m k.

Definition lift {A} (r : result A) : M A := fun s => (r, s).

Definition emit (ev : Event) : M unit :=
  fun s => (inr tt, mkState (fs s) (events s ++ [ev]) (resume_text s) (ai_analysis s)).

Definition print (l : LogLine) : M unit := emit (Printed l).

Definition get_fs : M FS.t := fun s => (inr (fs s), s).

Definition put_fs (f : FS.t) : M unit :=
  fun s => (inr tt, mkState f (events s) (resume_text s) (ai_analysis s)).

Definition assign_resume_text (v : string) : M unit :=
  fun s => (inr tt, mkState (fs s) (events s) (Some v) (ai_analysis s)).

Definition assign_ai_analysis (v : pyval) : M unit :=
  fun s => (inr tt, mkState (fs s) (events s) (resume_text s) (Some v)).

Definition read_resume_text : M string :=
  fun s =>
    match resume_text s with
    | Some v => (inr v, s)
    | None => (inl (UnboundLocalError "resume_text"), s)
    end.

Definition read_ai_analysis : M pyval :=
  fun s =>
    match ai_analysis s with
    | Some v => (inr v, s)
    | None => (inl (UnboundLocalError "ai_analysis"), s)
    end.

(** [try: body  except Exception as e: handler(e)  finally: final].  The
    [finally] suite always runs; an exception it raises replaces the
    outcome of what came before. *)
Definition try_except_finally (body : M unit) (handler : PyExc -> M unit)
    (final : M unit) : M unit :=
  fun s =>
    let '(r1, s1) := body s in
    let '(r2, s2) :=
      match r1 with
      | inr _ => (inr tt, s1)
      | inl e => handler e s1
      end in
    let '(r3, s3) := final s2 in
    match r3 with
    | inr _ => (r2, s3)
    | inl e => (inl e, s3)
    end.

(** Filesystem statements. *)
Definition fs_run {A} (op : FS.t -> result A * FS.t) : M A :=
  fun s =>
    let '(res, f') := op (fs s) in
    (res, mkState f' (events s) (resume_text s) (ai_analysis s)).

Definition fs_open_wb (p : string) : M (list string) := fs_run (FS.open_wb p).

Definition fs_copy (buffer : list string) (data : list Byte.byte) : M unit :=
  fs_run (FS.write buffer data).

Definition fs_read (p : string) : M (list Byte.byte) :=
  f ← get_fs; lift (FS.read_file p f).

Definition fs_exists (p : string) : M bool :=
  f ← get_fs; ret (FS.exists_ p f).

Definition fs_remove (p : string) : M unit :=
  f ← get_fs;
  f' ← lift (FS.remove p f);
  put_fs f'.

(** ** The module [main.py] *)

Section Main.

Variable cfg : Config.

(** Lines 26-28. *)
Definition GROQ_KEY : option string := GROQ_API_KEY cfg.
Definition DOC_ENDPOINT : option string := DOC_INTEL_ENDPOINT cfg.
Definition DOC_KEY : option string := DOC_INTEL_KEY cfg.

Definition PLACEHOLDER : string := "YOUR-KEY".

(** Lines 30-35: the module-level client, built once at import time.
    A failing constructor is swallowed by the bare [except]. *)
Definition doc_client : option Client :=
  match DOC_ENDPOINT, DOC_KEY with
  | Some endpoint, Some key =>
      if truthy_env (Some endpoint) && truthy_env (Some key)
         && negb (str_contains PLACEHOLDER key)
      then match DocumentIntelligenceClient cfg endpoint key with
           | inr c => Some c
           | inl _ => None
           end
      else None
  | _, _ => None
  end.

Definition GROQ_URL : string := "https://api.groq.com/openai/v1/chat/completions".

Definition groq_headers (api_key : string) : list (string * string) :=
  [ ("Authorization", "Bearer " +:+ api_key);
    ("Content-Type", "application/json") ].

Definition groq_data (text_prompt : string) : pyval :=
  PDict [
    ("model", PStr "llama-3.3-70b-versatile");
    ("messages", PList [
       PDict [("role", PStr "system");
              ("content", PStr "You are a JSON-only API. You output strictly valid JSON.")];
       PDict [("role", PStr "user"); ("content", PStr text_prompt)] ]);
    ("response_format", PDict [("type", PStr "json_object")])
  ].

(** Lines 38-62.  Returns the decoded body on status 200 and [None]
    otherwise. *)
Definition call_groq_ai (api_key text_prompt : string) : M pyval :=
  let url := GROQ_URL in
  let headers := groq_headers api_key in
  let data := groq_data text_prompt in
  let res := requests_post cfg url headers data in
  emit (HttpPost url headers data res) ;;
  response ← lift res;
  if status_code response =? 200 then
    lift (json response)
  else
    print (LogGroqError (status_code response) (text response)) ;;
    ret PNone.

(** Line 75. *)
Definition temp_filename (r : SignupRequest) : string :=
  "temp_" +:+ match filename (resume r) with
              | Some name => name
              | None => "None"
              end.

(** Line 79. *)
Definition RESUME_TEXT_SKIPPED : string := "Resume text missing (Azure skipped).".

(** Lines 82-93. *)
Definition FALLBACK : pyval :=
  PDict [
    ("match_score", PInt 85);
    ("skills_to_learn", PList [PStr "Python"; PStr "React"; PStr "Cloud Basics"]);
    ("learning_path", PList [
       PDict [("phase", PStr "Week 1"); ("title", PStr "Foundation");
              ("tasks", PList [PStr "Learn Syntax"; PStr "Build Calculator"])];
       PDict [("phase", PStr "Week 2"); ("title", PStr "Advanced");
              ("tasks", PList [PStr "API Integration"; PStr "DB Design"])] ]);
    ("suggested_projects", PList [
       PDict [("title", PStr "Portfolio Site"); ("desc", PStr "Build a personal site");
              ("difficulty", PStr "Beginner")] ]);
    ("advice", PStr "Focus on building practical projects.")
  ].

(** Lines 106-124: the f-string.  [RESUME_LIMIT] is the slice bound of
    [resume_text[:2000]]. *)
Definition RESUME_LIMIT : nat := 2000.

Definition PROMPT_SCHEMA : list string := map dq [
  "            ";
  "            OUTPUT JSON ONLY with this structure:";
  "            {";
  "                'match_score': 85,";
  "                'skills_to_learn': ['Skill1', 'Skill2', 'Skill3'],";
  "                'learning_path': [";
  "                    {'phase': 'Week 1-4', 'title': 'Foundation', 'tasks': ['Task 1', 'Task 2']},";
  "                    {'phase': 'Week 5-8', 'title': 'Building', 'tasks': ['Task 1', 'Task 2']}";
  "                ],";
  "                'suggested_projects': [";
  "                    {'title': 'Project A', 'desc': 'Description', 'difficulty': 'Beginner'}";
  "                ],";
  "                'advice': 'One sentence advice.'";
  "            }"
].

Definition build_prompt (name domains text : string) : string :=
  LF +:+
  "            Act as a Career Coach for " +:+ name +:+ "." +:+ LF +:+
  "            Interests: " +:+ domains +:+ LF +:+
  "            Resume: " +:+ str_take RESUME_LIMIT text +:+ LF +:+
  unlines PROMPT_SCHEMA +:+
  "            ".

(** Lines 97-101. *)
Definition read_resume (r : SignupRequest) : M unit :=
  match doc_client with
  | Some c =>
      print LogReadingPdf ;;
      f ← fs_read (temp_filename r);
      let res := begin_analyze_document cfg c "prebuilt-read" f
                   "application/octet-stream" in
      emit (AnalyzeDocument c "prebuilt-read" f "application/octet-stream" res) ;;
      content ← lift res;
      assign_resume_text content
  | None => ret tt
  end.

(** Line 131: [json.loads] accepts text only. *)
Definition loads (raw_text : pyval) : M pyval :=
  match raw_text with
  | PStr s => lift (json_loads cfg s)
  | _ => raise TypeError
  end.

(** Line 130: [api_result["choices"][0]["message"]["content"]]. *)
Definition message_content (api_result : pyval) : result pyval :=
  and_then (getitem_str api_result "choices") (fun choices =>
  and_then (getitem_int choices 0) (fun first =>
  and_then (getitem_str first "message") (fun message =>
  getitem_str message "content"))).

(** Lines 104-132. *)
Definition ai_stage (r : SignupRequest) : M unit :=
  match GROQ_KEY with
  | Some (String c k) =>
      let key := String c k in
      print LogAskingGroq ;;
      text ← read_resume_text;
      let prompt := build_prompt (full_name r) (selected_domains r) text in
      api_result ← call_groq_ai key prompt;
      if truthy api_result then
        raw_text ← lift (message_content api_result);
        parsed ← loads raw_text;
        assign_ai_analysis parsed ;;
        print LogGroqSuccess
      else ret tt
  | _ => ret tt
  end.

(** Lines 96-132: the suite of the [try] statement. *)
Definition try_body (r : SignupRequest) : M unit :=
  read_resume r ;; ai_stage r.

(** Lines 138-139. *)
Definition cleanup (r : SignupRequest) : M unit :=
  present ← fs_exists (temp_filename r);
  if (present : bool) then fs_remove (temp_filename r) else ret tt.

(** Lines 141-145. *)
Definition envelope (analysis : pyval) : pyval :=
  PDict [
    ("status", PStr "success");
    ("message", PStr "Signup Successful");
    ("ai_analysis", analysis)
  ].

(** Lines 65-145. *)
Definition signup_student (r : SignupRequest) : M pyval :=
  print (LogProcessing (full_name r)) ;;
  buffer ← fs_open_wb (temp_filename r);
  fs_copy buffer (file (resume r)) ;;
  assign_resume_text RESUME_TEXT_SKIPPED ;;
  assign_ai_analysis FALLBACK ;;
  try_except_finally
    (try_body r)
    (fun e => print (LogAIError e))
    (cleanup r) ;;
  analysis ← read_ai_analysis;
  ret (envelope analysis).

(** A request arriving on filesystem [f]: no event yet, locals unbound. *)
Definition initial (f : FS.t) : State := mkState f [] None None.

Definition handle (r : SignupRequest) (f : FS.t) : result pyval * State :=
  signup_student r (initial f).

(** The life of the process: requests served one after the other, each
    on the filesystem the previous one left. *)
Fixpoint serve (rs : list SignupRequest) (f : FS.t)
    : list (result pyval * State) :=
  match rs with
  | [] => []
  | r :: rest =>
      let o := handle r f in
      o :: serve rest (fs (snd o))
  end.

End Main.

(** ** Auxiliary definitions used by the statements *)

Section Aux.

Variable cfg : Config.

(** The state in which the [try] statement starts once the upload has
    been stored in [f1]. *)
Definition entry (r : SignupRequest) (f1 : FS.t) : State :=
  mkState f1 [Printed (LogProcessing (full_name r))]
    (Some RESUME_TEXT_SKIPPED) (Some FALLBACK).

(** What the extraction stage leaves in [resume_text] when it reads
    [doc], or the exception with which it ends the [try] suite. *)
Definition extracted_text (doc : list Byte.byte) : result string :=
  match doc_client cfg with
  | None => inr RESUME_TEXT_SKIPPED
  | Some c =>
      begin_analyze_document cfg c "prebuilt-read" doc "application/octet-stream"
  end.

(** The value that line 131 assigns after the chat-completion call came
    back with [res], if the suite gets that far. *)
Definition reply_analysis (res : result HttpResponse) : option pyval :=
  match res with
  | inr response =>
      if status_code response =? 200 then
        match json response with
        | inr api_result =>
            if truthy api_result then
              match message_content api_result with
              | inr (PStr raw_text) =>
                  match json_loads cfg raw_text with
                  | inr parsed => Some parsed
                  | inl _ => None
                  end
              | _ => None
              end
            else None
        | inl _ => None
        end
      else None
  | inl _ => None
  end.

(** The filesystem a stored request leaves: [f] without the file at the
    location its temporary path resolves to. *)
Definition swept (r : SignupRequest) (f : FS.t) : FS.t :=
  match FS.open_wb (temp_filename r) f with
  | (inr l, _) => FS.set_files f (delete l (FS.files f))
  | (inl _, _) => f
  end.

(** The line printed by the [except] clause, if any. *)
Definition except_line (rb : result unit) : list Event :=
  match rb with
  | inl e => [Printed (LogAIError e)]
  | inr _ => []
  end.

End Aux.

Arguments build_prompt : simpl never.
Arguments FALLBACK : simpl never.
Arguments temp_filename : simpl never.
Arguments RESUME_TEXT_SKIPPED : simpl never.
Arguments groq_headers : simpl never.
Arguments groq_data : simpl never.
Arguments GROQ_URL : simpl never.
Arguments FS.write_file : simpl never.
Arguments FS.open_wb : simpl never.
Arguments FS.write : simpl never.
Arguments FS.save : simpl never.
Arguments FS.resolve : simpl never.
Arguments FS.entry_of : simpl never.
Arguments FS.read_file : simpl never.
Arguments FS.exists_ : simpl never.
Arguments FS.remove : simpl never.
Arguments message_content : simpl never.
Arguments truthy : simpl never.
Arguments envelope : simpl never.

(** ** The AnalysisResult shape *)

Module Shape.

Definition is_str (v : pyval) : bool :=
  match v with
  | PStr _ => true
  | _ => false
  end.

Definition is_str_list (v : pyval) : bool :=
  match v with
  | PList items => forallb is_str items
  | _ => false
  end.

Definition field_ok (check : pyval -> bool) (entries : list (string * pyval))
    (key : string) : bool :=
  match dict_get entries key with
  | Some v => check v
  | None => false
  end.

Definition is_list_of (check : pyval -> bool) (v : pyval) : bool :=
  match v with
  | PList items => forallb check items
  | _ => false
  end.

Definition is_score (v : pyval) : bool :=
  match v with
  | PInt n => (0 <=? n) && (n <=? 100)
  | _ => false
  end.

Definition is_phase (v : pyval) : bool :=
  match v with
  | PDict e =>
      field_ok is_str e "phase" && field_ok is_str e "title"
      && field_ok is_str_list e "tasks"
  | _ => false
  end.

Definition is_project (v : pyval) : bool :=
  match v with
  | PDict e =>
      field_ok is_str e "title" && field_ok is_str e "desc"
      && field_ok is_str e "difficulty"
  | _ => false
  end.

(** Modelled from the spec: the AnalysisResult shape of its data model,
    which the source declares nowhere as a type.  The field names are the
    keys of the schema embedded in the prompt (lines 112-123), the same as
    those of the fallback literal; the description of a project is the
    key [desc]. *)
Definition valid_AnalysisResult (v : pyval) : bool :=
  match v with
  | PDict e =>
      field_ok is_score e "match_score"
      && field_ok is_str_list e "skills_to_learn"
      && field_ok (is_list_of is_phase) e "learning_path"
      && field_ok (is_list_of is_project) e "suggested_projects"
      && field_ok is_str e "advice"
  | _ => false
  end.

End Shape.

(** ** Predicates on outcomes *)

Definition is_analyze (ev : Event) : bool :=
  match ev with
  | AnalyzeDocument _ _ _ _ _ => true
  | _ => false
  end.

(** The extraction stage did not run in this outcome: no call to the
    document service, and [resume_text] is unbound (the upload was not
    stored) or still the sentinel. *)
Definition extraction_skipped (o : result pyval * State) : Prop :=
  forallb (fun ev => negb (is_analyze ev)) (events (snd o)) = true /\
  (resume_text (snd o) = None \/ resume_text (snd o) = Some RESUME_TEXT_SKIPPED).

(** The conditions under which line 32 or the constructor leave
    [doc_client] unset. *)
Definition client_unavailable (cfg : Config) : Prop :=
  truthy_env (DOC_ENDPOINT cfg) = false \/
  truthy_env (DOC_KEY cfg) = false \/
  (exists key before after,
     DOC_KEY cfg = Some key /\ key = before +:+ PLACEHOLDER +:+ after) \/
  (exists endpoint key e,
     DOC_ENDPOINT cfg = Some endpoint /\ DOC_KEY cfg = Some key /\
     DocumentIntelligenceClient cfg endpoint key = inl e).

(** ** Sample configurations and requests *)

Module Sample.

Definition new_client (endpoint key : string) : result Client :=
  inr {| client_endpoint := endpoint; client_credential := key |}.

Definition offline {A} : result A := inl (ExternalError "connection refused").

(** No environment variable is set. *)
Definition cfg_bare : Config := {|
  GROQ_API_KEY := None;
  DOC_INTEL_ENDPOINT := None;
  DOC_INTEL_KEY := None;
  DocumentIntelligenceClient := new_client;
  begin_analyze_document := fun _ _ _ _ => offline;
  requests_post := fun _ _ _ => offline;
  json_loads := fun _ => inl JSONDecodeError
|}.

Definition reply_text : string := dq "{'match_score': 90}".

Definition reply_value : pyval := PDict [("match_score", PInt 90)].

Definition completion : pyval :=
  PDict [("choices", PList [
    PDict [("message", PDict [("role", PStr "assistant");
                              ("content", PStr reply_text)])] ])].

Definition loads_reply (s : string) : result pyval :=
  if String.eqb s reply_text then inr reply_value else inl JSONDecodeError.

(** Only the chat-completion service is configured, and it answers. *)
Definition cfg_groq : Config := {|
  GROQ_API_KEY := Some "gsk_test";
  DOC_INTEL_ENDPOINT := None;
  DOC_INTEL_KEY := None;
  DocumentIntelligenceClient := new_client;
  begin_analyze_document := fun _ _ _ _ => offline;
  requests_post := fun _ _ _ =>
    inr {| status_code := 200; text := reply_text; json := inr completion |};
  json_loads := loads_reply
|}.

(** The chat-completion service answers with a server error. *)
Definition cfg_groq_500 : Config := {|
  GROQ_API_KEY := Some "gsk_test";
  DOC_INTEL_ENDPOINT := None;
  DOC_INTEL_KEY := None;
  DocumentIntelligenceClient := new_client;
  begin_analyze_document := fun _ _ _ _ => offline;
  requests_post := fun _ _ _ =>
    inr {| status_code := 500; text := "Internal Server Error";
           json := inl JSONDecodeError |};
  json_loads := loads_reply
|}.

(** The credential is still the placeholder of the sample [.env]. *)
Definition cfg_placeholder : Config := {|
  GROQ_API_KEY := Some "gsk_test";
  DOC_INTEL_ENDPOINT := Some "https://example.cognitiveservices.azure.com/";
  DOC_INTEL_KEY := Some "PASTE-YOUR-KEY-HERE";
  DocumentIntelligenceClient := new_client;
  begin_analyze_document := fun _ _ _ _ => inr "Extracted text";
  requests_post := fun _ _ _ =>
    inr {| status_code := 200; text := reply_text; json := inr completion |};
  json_loads := loads_reply
|}.

(** The working directory of the server; nothing else is there. *)
Definition app_dir : list string := ["srv"; "app"].

Definition fs_empty : FS.t :=
  FS.mk ∅ {[ []; ["srv"]; app_dir ]} app_dir None.

Definition upload (name : string) : UploadFile :=
  {| filename := Some name; file := [Byte.x25; Byte.x50; Byte.x44; Byte.x46] |}.

(** The defaults of the form fields, with a resume called [cv.pdf]. *)
Definition req_plain : SignupRequest := {|
  full_name := "Student";
  email := "test@test.com";
  selected_domains := "[]";
  degree := EmptyString;
  resume := upload "cv.pdf"
|}.

(** The filesystem once the upload of [req_plain] is stored. *)
Definition stored_plain : FS.t :=
  FS.set_files fs_empty
    (<[app_dir ++ ["temp_cv.pdf"] := file (resume req_plain)]> ∅).

(** The same candidate with other contact data. *)
Definition req_other_contact : SignupRequest := {|
  full_name := "Student";
  email := "someone@example.org";
  selected_domains := "[]";
  degree := "BSc";
  resume := upload "cv.pdf"
|}.

(** A client-chosen file name with a directory part. *)
Definition req_nested : SignupRequest := {|
  full_name := "Student";
  email := "test@test.com";
  selected_domains := "[]";
  degree := EmptyString;
  resume := upload "a/cv.pdf"
|}.

End Sample.

(** ** Further predicates on traces and replies *)

Definition is_post (ev : Event) : bool :=
  match ev with
  | HttpPost _ _ _ _ => true
  | _ => false
  end.

Fixpoint count_events (p : Event -> bool) (evs : list Event) : nat :=
  match evs with
  | [] => O
  | ev :: rest => ((if p ev then 1 else 0) + count_events p rest)%nat
  end.

(** The first component of a path, and whether more follow, that is,
    whether the path contains a slash. *)
Definition first_component (p : string) : string :=
  hd EmptyString (FS.components p).

Definition has_directory_part (p : string) : bool :=
  match FS.components p with
  | _ :: _ :: _ => true
  | _ => false
  end.

(** Same outcome for the caller: the same response, or an exception on
    both sides. *)
Definition same_outcome (a b : result pyval) : Prop :=
  match a, b with
  | inr x, inr y => x = y
  | inl _, inl _ => True
  | _, _ => False
  end.

(** A reply with status 200 from which lines 129-131 cannot take a new
    analysis: the body is not JSON, the decoded body is false in a
    condition, the path [choices[0].message.content] is missing, the
    content is not text, or [json.loads] rejects the content. *)
Definition reply_unusable (cfg : Config) (response : HttpResponse) : Prop :=
  (exists e, json response = inl e) \/
  (exists api_result,
     json response = inr api_result /\
     (truthy api_result = false \/
      (exists e, message_content api_result = inl e) \/
      (exists raw, message_content api_result = inr raw /\
                   forall s, raw <> PStr s) \/
      (exists s e, message_content api_result = inr (PStr s) /\
                   json_loads cfg s = inl e))).

(** ** Further sample configurations *)

Module Scenario.

Definition extracted : string := "Jane Doe. Python, SQL. BSc 2023.".

(** Both services are configured and answer. *)
Definition cfg_full : Config := {|
  GROQ_API_KEY := Some "gsk_test";
  DOC_INTEL_ENDPOINT := Some "https://example.cognitiveservices.azure.com/";
  DOC_INTEL_KEY := Some "0123456789abcdef";
  DocumentIntelligenceClient := Sample.new_client;
  begin_analyze_document := fun _ _ _ _ => inr extracted;
  requests_post := fun _ _ _ =>
    inr {| status_code := 200; text := Sample.reply_text;
           json := inr Sample.completion |};
  json_loads := Sample.loads_reply
|}.

Definition the_client : Client :=
  {| client_endpoint := "https://example.cognitiveservices.azure.com/";
     client_credential := "0123456789abcdef" |}.

(** Both services are configured; the document service is down. *)
Definition cfg_azure_down : Config := {|
  GROQ_API_KEY := Some "gsk_test";
  DOC_INTEL_ENDPOINT := Some "https://example.cognitiveservices.azure.com/";
  DOC_INTEL_KEY := Some "0123456789abcdef";
  DocumentIntelligenceClient := Sample.new_client;
  begin_analyze_document := fun _ _ _ _ => Sample.offline;
  requests_post := fun _ _ _ =>
    inr {| status_code := 200; text := Sample.reply_text;
           json := inr Sample.completion |};
  json_loads := Sample.loads_reply
|}.

(** The chat-completion service cannot be reached. *)
Definition cfg_groq_offline : Config := {|
  GROQ_API_KEY := Some "gsk_test";
  DOC_INTEL_ENDPOINT := None;
  DOC_INTEL_KEY := None;
  DocumentIntelligenceClient := Sample.new_client;
  begin_analyze_document := fun _ _ _ _ => Sample.offline;
  requests_post := fun _ _ _ => Sample.offline;
  json_loads := Sample.loads_reply
|}.

(** The chat-completion service answers 200 with an empty choice list. *)
Definition cfg_groq_no_choice : Config := {|
  GROQ_API_KEY := Some "gsk_test";
  DOC_INTEL_ENDPOINT := None;
  DOC_INTEL_KEY := None;
  DocumentIntelligenceClient := Sample.new_client;
  begin_analyze_document := fun _ _ _ _ => Sample.offline;
  requests_post := fun _ _ _ =>
    inr {| status_code := 200; text := "{}";
           json := inr (PDict [("choices", PList [])]) |};
  json_loads := Sample.loads_reply
|}.

(** The document service is configured, the language model is not (the
    key is set to the empty string). *)
Definition cfg_azure_only : Config := {|
  GROQ_API_KEY := Some EmptyString;
  DOC_INTEL_ENDPOINT := Some "https://example.cognitiveservices.azure.com/";
  DOC_INTEL_KEY := Some "0123456789abcdef";
  DocumentIntelligenceClient := Sample.new_client;
  begin_analyze_document := fun _ _ _ _ => inr extracted;
  requests_post := fun _ _ _ => Sample.offline;
  json_loads := Sample.loads_reply
|}.

(** A filesystem that already holds a file at the temporary path of
    [cv.pdf], a directory [temp_a] and an unrelated file. *)
Definition fs_used : FS.t :=
  FS.mk (<[Sample.app_dir ++ ["temp_cv.pdf"] := [Byte.x00]]>
           (<[Sample.app_dir ++ ["notes.txt"] := [Byte.x41]]> ∅))
        {[ []; ["srv"]; Sample.app_dir; Sample.app_dir ++ ["temp_a"] ]}
        Sample.app_dir None.

(** The same with a file size limit of two bytes. *)
Definition fs_small : FS.t :=
  FS.mk ∅ {[ []; ["srv"]; Sample.app_dir ]} Sample.app_dir (Some 2%nat).

(** A regular file where a later request expects a directory. *)
Definition fs_file_in_the_way : FS.t :=
  FS.mk (<[Sample.app_dir ++ ["temp_a"] := [Byte.x41]]> ∅)
        {[ []; ["srv"]; Sample.app_dir ]} Sample.app_dir None.

Definition req_named (name : string) : SignupRequest := {|
  full_name := "Student";
  email := "test@test.com";
  selected_domains := "[]";
  degree := EmptyString;
  resume := Sample.upload name
|}.

(** The request of [Sample.req_plain] with other bytes in the upload. *)
Definition req_other_bytes : SignupRequest := {|
  full_name := "Student";
  email := "test@test.com";
  selected_domains := "[]";
  degree := EmptyString;
  resume := {| filename := Some "cv.pdf"; file := [Byte.x00; Byte.x01] |}
|}.

End Scenario.

(** ** Proof automation for the monadic code *)

Ltac unfold_ops :=
  unfold fs_open_wb, fs_copy, fs_run, fs_read, fs_exists, fs_remove,
    read_resume_text, read_ai_analysis, assign_resume_text, assign_ai_analysis,
    get_fs, put_fs, print, emit, lift, raise,
    mbind, M_bind, bind, mret, M_ret, ret in *.

Ltac unfold_body :=
  unfold try_body, read_resume, ai_stage, call_groq_ai, loads in *; unfold_ops.

Ltac rewrite_known :=
  repeat match goal with H : ?x = _ |- context [?x] => rewrite H; simpl end.

Ltac split_cases := repeat (case_match; simplify_eq/=).

Ltac split_in H :=
  rewrite ?in_app_iff in H; simpl in H; destruct_or?; simplify_eq;
  try contradiction.

(** ** Facts about slices and substring tests *)

Section TextFacts.

Lemma str_take_length n s : (String.length (str_take n s) <= n)%nat.
Proof.
  revert s. induction n as [|n IH]; intros [|c s]; simpl; try lia.
  specialize (IH s). lia.
Qed.

Lemma str_take_is_prefix n s : exists rest, s = str_take n s +:+ rest.
Proof.
  revert s. induction n as [|n IH]; intros s.
  - exists s. reflexivity.
  - destruct s as [|c s]; simpl.
    + exists EmptyString. reflexivity.
    + destruct (IH s) as [rest Hrest]. exists rest.
      rewrite Hrest at 1. reflexivity.
Qed.

Lemma str_take_all n s : (String.length s <= n)%nat -> str_take n s = s.
Proof.
  revert s. induction n as [|n IH]; intros [|c s]; simpl; intros H;
    try reflexivity; try lia.
  f_equal. apply IH. lia.
Qed.

Lemma str_take_full n s :
  (n <= String.length s)%nat -> String.length (str_take n s) = n.
Proof.
  revert s. induction n as [|n IH]; intros [|c s]; simpl; intros H;
    try reflexivity; try lia.
  f_equal. apply IH. lia.
Qed.

Lemma str_prefix_spec p s :
  str_prefix p s = true <-> exists rest, s = p +:+ rest.
Proof.
  revert s. induction p as [|a p IH]; intros s; simpl.
  - split; [intros _; exists s; reflexivity | reflexivity].
  - destruct s as [|b s].
    + split; [discriminate | intros [rest H]; discriminate].
    + rewrite andb_true_iff, Ascii.eqb_eq, IH. split.
      * intros [-> [rest ->]]. exists rest. reflexivity.
      * intros [rest H]. injection H as -> ->. split; [reflexivity | eauto].
Qed.

Lemma str_contains_spec needle s :
  str_contains needle s = true <->
  exists before after, s = before +:+ needle +:+ after.
Proof.
  induction s as [|c s IH].
  - simpl. rewrite orb_false_r, str_prefix_spec. split.
    + intros [rest H]. exists EmptyString, rest. exact H.
    + intros [[|b before] [after H]]; [eauto | discriminate].
  - cbn [str_contains]. rewrite orb_true_iff, IH, str_prefix_spec. split.
    + intros [[rest H] | (before & after & H)].
      * exists EmptyString, rest. exact H.
      * exists (String c before), after. subst s. reflexivity.
    + intros ([|b before] & after & H).
      * left. exists after. exact H.
      * right. injection H as -> H. eauto.
Qed.

End TextFacts.

(** ** Facts about the filesystem operations *)

Section FSFacts.

(** A walk that succeeds consults the directories only. *)
Lemma enter_same_dirs p f f' cur c l :
  FS.dirs f' = FS.dirs f ->
  FS.enter p f cur c = inr l -> FS.enter p f' cur c = inr l.
Proof.
  intros Hd. unfold FS.enter, FS.is_dir. rewrite Hd.
  repeat (case_match; try discriminate); auto.
Qed.

Lemma walk_same_dirs p f f' cs cur x :
  FS.dirs f' = FS.dirs f ->
  FS.walk p f cur cs = inr x -> FS.walk p f' cur cs = inr x.
Proof.
  intros Hd. revert cur. induction cs as [|c rest IH]; intros cur; simpl.
  - auto.
  - destruct (FS.is_empty c); [apply IH|].
    destruct (forallb FS.is_empty rest); [auto|].
    destruct (FS.enter p f cur c) as [e|cur'] eqn:He; [discriminate|].
    rewrite (enter_same_dirs _ _ _ _ _ _ Hd He). apply IH.
Qed.

Lemma resolve_same_dirs p f f' x :
  FS.dirs f' = FS.dirs f -> FS.cwd f' = FS.cwd f ->
  FS.resolve p f = inr x -> FS.resolve p f' = inr x.
Proof.
  intros Hd Hc. unfold FS.resolve. rewrite Hc.
  repeat (case_match; try discriminate); apply walk_same_dirs; exact Hd.
Qed.

Lemma entry_of_same_dirs p f f' x :
  FS.dirs f' = FS.dirs f -> FS.cwd f' = FS.cwd f ->
  FS.entry_of p f = inr x -> FS.entry_of p f' = inr x.
Proof.
  intros Hd Hc. unfold FS.entry_of.
  destruct (FS.resolve p f) as [e|[cur la]] eqn:Hr; [discriminate|].
  rewrite (resolve_same_dirs _ _ _ _ Hd Hc Hr). auto.
Qed.

Lemma entry_of_set_files p f m x :
  FS.entry_of p f = inr x -> FS.entry_of p (FS.set_files f m) = inr x.
Proof. apply entry_of_same_dirs; reflexivity. Qed.

(** Whether a path can be opened for writing, and where it leads, is
    decided by the directories and the working directory. *)
Lemma open_wb_same_dirs p f f' l :
  FS.dirs f' = FS.dirs f -> FS.cwd f' = FS.cwd f ->
  fst (FS.open_wb p f) = inr l -> fst (FS.open_wb p f') = inr l.
Proof.
  intros Hd Hc. unfold FS.open_wb, FS.is_dir.
  destruct (FS.resolve p f) as [e|[cur la]] eqn:Hr; [discriminate|].
  rewrite (resolve_same_dirs _ _ _ _ Hd Hc Hr), Hd.
  destruct la; try discriminate.
  repeat (case_match; try discriminate); auto.
Qed.

Lemma open_wb_inv p f l f1 :
  FS.open_wb p f = (inr l, f1) ->
  FS.entry_of p f = inr (l, false) /\ FS.is_dir f l = false /\
  f1 = FS.set_files f (<[l := []]> (FS.files f)).
Proof.
  unfold FS.open_wb, FS.entry_of.
  destruct (FS.resolve p f) as [e|[cur la]]; [discriminate|].
  destruct la; try discriminate.
  destruct (FS.too_long name); [discriminate|].
  destruct (FS.is_dir f (cur ++ [name])) eqn:Hd; [discriminate|].
  intros [= <- <-]. auto.
Qed.

Lemma open_wb_fails_keeps p f e f1 :
  FS.open_wb p f = (inl e, f1) -> f1 = f.
Proof.
  unfold FS.open_wb.
  repeat (case_match; try discriminate); congruence.
Qed.

(** What a complete save amounts to. *)
Lemma write_file_inv p data f f2 :
  FS.write_file p data f = inr f2 ->
  exists l,
    fst (FS.open_wb p f) = inr l /\
    FS.entry_of p f = inr (l, false) /\ FS.is_dir f l = false /\
    FS.fits f data = true /\
    f2 = FS.set_files f (<[l := data]> (FS.files f)).
Proof.
  unfold FS.write_file, FS.save.
  destruct (FS.open_wb p f) as [[e|l] f1] eqn:Ho; [discriminate|].
  destruct (open_wb_inv _ _ _ _ Ho) as (He & Hd & ->).
  unfold FS.write, FS.fits, FS.set_files. simpl.
  destruct (FS.max_file_size f) as [n|].
  - destruct (n <? length data)%nat eqn:Hn; [discriminate|].
    intros [= <-]. exists l. rewrite insert_insert_eq.
    repeat split; try assumption.
    apply Nat.leb_le. apply Nat.ltb_ge in Hn. exact Hn.
  - intros [= <-]. exists l. rewrite insert_insert_eq. auto.
Qed.

Lemma write_file_save p data f e :
  FS.write_file p data f = inl e <-> fst (FS.save p data f) = inl e.
Proof.
  unfold FS.write_file. destruct (FS.save p data f) as [[e'|[]] f2]; simpl.
  - split; intros [= ->]; reflexivity.
  - split; discriminate.
Qed.

Lemma write_file_save_ok p data f f2 :
  FS.write_file p data f = inr f2 <-> FS.save p data f = (inr tt, f2).
Proof.
  unfold FS.write_file. destruct (FS.save p data f) as [[e'|[]] f']; simpl.
  - split; discriminate.
  - split; intros [= ->]; reflexivity.
Qed.

Lemma read_after_write p data f f2 :
  FS.write_file p data f = inr f2 -> FS.read_file p f2 = inr data.
Proof.
  intros (l & _ & He & Hd & _ & ->)%write_file_inv.
  unfold FS.read_file.
  rewrite (entry_of_set_files _ _ _ _ He).
  unfold FS.is_dir in *. simpl. rewrite Hd, lookup_insert_eq. reflexivity.
Qed.

Lemma exists_after_write p data f f2 :
  FS.write_file p data f = inr f2 -> FS.exists_ p f2 = true.
Proof.
  intros (l & _ & He & Hd & _ & ->)%write_file_inv.
  unfold FS.exists_.
  rewrite (entry_of_set_files _ _ _ _ He).
  unfold FS.is_dir, FS.is_file in *. simpl. rewrite Hd, lookup_insert_eq.
  reflexivity.
Qed.

Lemma remove_after_write p data f f2 l :
  FS.write_file p data f = inr f2 ->
  fst (FS.open_wb p f) = inr l ->
  FS.remove p f2 = inr (FS.set_files f (delete l (FS.files f))).
Proof.
  intros (l' & Hl' & He & Hd & _ & ->)%write_file_inv Hl.
  assert (l' = l) as -> by congruence.
  unfold FS.remove.
  rewrite (entry_of_set_files _ _ _ _ He).
  unfold FS.is_dir, FS.set_files in *. simpl. rewrite Hd, lookup_insert_eq.
  rewrite delete_insert_eq. reflexivity.
Qed.

(** After the removal the path no longer exists. *)
Lemma exists_after_remove p f l :
  FS.entry_of p f = inr (l, false) -> FS.is_dir f l = false ->
  FS.exists_ p (FS.set_files f (delete l (FS.files f))) = false.
Proof.
  intros He Hd. unfold FS.exists_.
  rewrite (entry_of_set_files _ _ _ _ He).
  unfold FS.is_dir, FS.is_file in *. simpl. rewrite Hd, lookup_delete_eq.
  reflexivity.
Qed.

End FSFacts.

(** ** The pipeline, stage by stage *)

Section PipelineFacts.

Variable cfg : Config.

(** The [try] suite never touches the filesystem. *)
Lemma try_body_frame r s : fs (snd (try_body cfg r s)) = fs s.
Proof. unfold_body. simpl. split_cases; reflexivity. Qed.

(** Every chat-completion call in the trace is the one of line 127, and
    it fixes the value of [ai_analysis] when the suite ends. *)
Lemma try_body_post r s t0 a0 doc url h d res :
  resume_text s = Some t0 ->
  ai_analysis s = Some a0 ->
  FS.read_file (temp_filename r) (fs s) = inr doc ->
  In (HttpPost url h d res) (events (snd (try_body cfg r s))) ->
  In (HttpPost url h d res) (events s) \/
  exists key text,
    GROQ_KEY cfg = Some key /\ truthy_env (Some key) = true /\
    match doc_client cfg with
    | None => text = t0
    | Some c => begin_analyze_document cfg c "prebuilt-read" doc
                  "application/octet-stream" = inr text
    end /\
    url = GROQ_URL /\ h = groq_headers key /\
    d = groq_data (build_prompt (full_name r) (selected_domains r) text) /\
    res = requests_post cfg url h d /\
    ai_analysis (snd (try_body cfg r s)) =
      Some (default a0 (reply_analysis cfg res)).
Proof.
  intros Ht Ha Hdoc. unfold_body. simpl.
  repeat (first [rewrite Hdoc | rewrite Ht | rewrite Ha | case_match];
          simplify_eq/=).
  all: intros Hin; split_in Hin; try (left; assumption).
  all: right; eexists _, _; repeat split; try reflexivity;
    try (symmetry; eassumption).
  all: unfold reply_analysis; simpl; rewrite_known; reflexivity.
Qed.

(** The suite leaves [ai_analysis] alone or replaces it by one parsed
    reply. *)
Lemma try_body_analysis r s a0 :
  ai_analysis s = Some a0 ->
  ai_analysis (snd (try_body cfg r s)) = Some a0 \/
  exists url h d response api_result raw_text parsed,
    In (HttpPost url h d (inr response)) (events (snd (try_body cfg r s))) /\
    status_code response = 200 /\
    json response = inr api_result /\
    message_content api_result = inr (PStr raw_text) /\
    json_loads cfg raw_text = inr parsed /\
    fst (try_body cfg r s) = inr tt /\
    ai_analysis (snd (try_body cfg r s)) = Some parsed.
Proof.
  intros Ha. unfold_body. simpl.
  repeat (first [rewrite Ha | case_match]; simplify_eq/=).
  all: try (left; reflexivity).
  all: right; eexists _, _, _, _, _, _, _.
  all: rewrite ?in_app_iff; simpl.
  all: repeat split;
    [ left; right; left; reflexivity
    | apply Z.eqb_eq; eassumption
    | eassumption .. ].
Qed.

(** With no client the extraction stage does nothing. *)
Lemma try_body_no_client r s :
  doc_client cfg = None ->
  forall c m doc ct res,
    In (AnalyzeDocument c m doc ct res) (events (snd (try_body cfg r s))) ->
    In (AnalyzeDocument c m doc ct res) (events s).
Proof.
  intros Hc c m doc ct res. unfold_body. rewrite Hc. simpl.
  split_cases.
  all: intros Hin; split_in Hin; assumption.
Qed.

Lemma try_body_no_client_text r s :
  doc_client cfg = None ->
  resume_text (snd (try_body cfg r s)) = resume_text s.
Proof.
  intros Hc. unfold_body. rewrite Hc. simpl. split_cases; reflexivity.
Qed.

(** The request could not be stored: the exception of [open] or of the
    copy leaves the handler before any local is bound. *)
Lemma handle_unsaved r f e :
  FS.write_file (temp_filename r) (file (resume r)) f = inl e ->
  handle cfg r f =
    (inl e,
     mkState (snd (FS.save (temp_filename r) (file (resume r)) f))
       [Printed (LogProcessing (full_name r))] None None).
Proof.
  intros Hw. apply write_file_save in Hw. revert Hw.
  unfold handle, signup_student, initial, FS.save. unfold_ops. simpl.
  destruct (FS.open_wb (temp_filename r) f) as [[e1|l] f1]; simpl.
  - intros [= ->]. reflexivity.
  - destruct (FS.write l (file (resume r)) f1) as [[e2|[]] f2]; simpl.
    + intros [= ->]. reflexivity.
    + discriminate.
Qed.

(** The request was stored: the handler returns the envelope around
    whatever [ai_analysis] holds after the [try] suite, and the temporary
    file is gone. *)
Lemma handle_saved r f f1 a :
  FS.write_file (temp_filename r) (file (resume r)) f = inr f1 ->
  ai_analysis (snd (try_body cfg r (entry r f1))) = Some a ->
  handle cfg r f =
    (inr (envelope a),
     mkState (swept r f)
       (events (snd (try_body cfg r (entry r f1)))
          ++ except_line (fst (try_body cfg r (entry r f1))))
       (resume_text (snd (try_body cfg r (entry r f1))))
       (Some a)).
Proof.
  intros Hw Ha.
  pose proof (try_body_frame r (entry r f1)) as Hfs.
  destruct (write_file_inv _ _ _ _ Hw) as (l & Hl & _).
  pose proof (exists_after_write _ _ _ _ Hw) as Hex.
  pose proof (remove_after_write _ _ _ _ l Hw Hl) as Hrm.
  assert (swept r f = FS.set_files f (delete l (FS.files f))) as ->.
  { unfold swept. destruct (FS.open_wb (temp_filename r) f) as [[e|l'] f'].
    - discriminate.
    - simpl in Hl. congruence. }
  apply write_file_save_ok in Hw. revert Hw.
  unfold handle, signup_student, try_except_finally, cleanup, initial, FS.save.
  unfold_ops. simpl.
  destruct (FS.open_wb (temp_filename r) f) as [[e1|l1] f0]; simpl;
    [discriminate|].
  intros Hw. rewrite Hw. simpl. fold (entry r f1).
  destruct (try_body cfg r (entry r f1)) as [rb sb]. simpl in *.
  destruct rb as [e|[]]; simpl; rewrite Hfs, Hex; simpl; rewrite ?Hfs, Hrm;
    simpl; rewrite Ha; simpl; rewrite ?app_nil_r; reflexivity.
Qed.

Lemma try_body_bound r s a0 :
  ai_analysis s = Some a0 ->
  exists a, ai_analysis (snd (try_body cfg r s)) = Some a.
Proof.
  intros Ha. destruct (try_body_analysis r s a0 Ha) as [H | H].
  - eauto.
  - destruct H as (? & ? & ? & ? & ? & ? & parsed & H). exists parsed. apply H.
Qed.

(** A stored request always gets the success envelope. *)
Lemma handle_saved_returns r f f1 :
  FS.write_file (temp_filename r) (file (resume r)) f = inr f1 ->
  exists a,
    ai_analysis (snd (try_body cfg r (entry r f1))) = Some a /\
    fst (handle cfg r f) = inr (envelope a) /\
    ai_analysis (snd (handle cfg r f)) = Some a /\
    fs (snd (handle cfg r f)) = swept r f /\
    events (snd (handle cfg r f)) =
      events (snd (try_body cfg r (entry r f1)))
        ++ except_line (fst (try_body cfg r (entry r f1))).
Proof.
  intros Hw.
  destruct (try_body_bound r (entry r f1) FALLBACK eq_refl) as [a Ha].
  exists a. rewrite (handle_saved r f f1 a Hw Ha). simpl. auto.
Qed.

End PipelineFacts.

(** ** The handler as a whole *)

Section HandlerFacts.

Variable cfg : Config.

(** A chat-completion call in the trace of a request pins down the whole
    outcome of that request. *)
Lemma handle_post r f url h d res :
  In (HttpPost url h d res) (events (snd (handle cfg r f))) ->
  exists f1 key text,
    FS.write_file (temp_filename r) (file (resume r)) f = inr f1 /\
    GROQ_KEY cfg = Some key /\ truthy_env (Some key) = true /\
    extracted_text cfg (file (resume r)) = inr text /\
    url = GROQ_URL /\ h = groq_headers key /\
    d = groq_data (build_prompt (full_name r) (selected_domains r) text) /\
    res = requests_post cfg url h d /\
    fst (handle cfg r f) =
      inr (envelope (default FALLBACK (reply_analysis cfg res))) /\
    ai_analysis (snd (handle cfg r f)) =
      Some (default FALLBACK (reply_analysis cfg res)).
Proof.
  intros Hin.
  destruct (FS.write_file (temp_filename r) (file (resume r)) f)
    as [e|f1] eqn:Hw.
  - rewrite (handle_unsaved cfg r f e Hw) in Hin. simpl in Hin.
    destruct Hin as [Hin|[]]. discriminate.
  - destruct (handle_saved_returns cfg r f f1 Hw)
      as (a & Ha & Hres & Hai & _ & Hev).
    rewrite Hev in Hin. apply in_app_iff in Hin.
    destruct Hin as [Hin|Hin].
    2:{ destruct (fst (try_body cfg r (entry r f1))); simpl in Hin;
        [destruct Hin as [Hin|[]]; discriminate | contradiction]. }
    apply (try_body_post cfg r (entry r f1) RESUME_TEXT_SKIPPED FALLBACK
             (file (resume r))) in Hin;
      [ | reflexivity | reflexivity | exact (read_after_write _ _ _ _ Hw) ].
    destruct Hin as [Hin | (key & text & Hk & Hkt & Htext & -> & -> & -> & -> & Hb)].
    { simpl in Hin. destruct Hin as [Hin|[]]. discriminate. }
    exists f1, key, text.
    assert (a = default FALLBACK
                  (reply_analysis cfg (requests_post cfg GROQ_URL (groq_headers key)
                     (groq_data (build_prompt (full_name r) (selected_domains r) text)))))
      as <- by congruence.
    repeat split; try assumption; try reflexivity.
    unfold extracted_text. destruct (doc_client cfg); congruence.
Qed.

(** The handler raises exactly when the upload cannot be stored. *)
Lemma handle_raises_iff r f e :
  fst (handle cfg r f) = inl e <->
  FS.write_file (temp_filename r) (file (resume r)) f = inl e.
Proof.
  destruct (FS.write_file (temp_filename r) (file (resume r)) f)
    as [e'|f1] eqn:Hw.
  - rewrite (handle_unsaved cfg r f e' Hw). simpl. split; congruence.
  - destruct (handle_saved_returns cfg r f f1 Hw) as (a & _ & Hres & _).
    rewrite Hres. split; discriminate.
Qed.

(** Without a key the language-model stage does nothing. *)
Lemma try_body_idle r s :
  GROQ_KEY cfg = None -> doc_client cfg = None ->
  try_body cfg r s = (inr tt, s).
Proof.
  intros Hk Hc. unfold_body. rewrite Hk, Hc. reflexivity.
Qed.

(** When the [try] suite raises, [ai_analysis] still holds what it held
    on entry. *)
Lemma try_body_raises_keeps r s a0 e :
  ai_analysis s = Some a0 ->
  fst (try_body cfg r s) = inl e ->
  ai_analysis (snd (try_body cfg r s)) = Some a0.
Proof.
  intros Ha He. destruct (try_body_analysis cfg r s a0 Ha) as [H|H].
  - exact H.
  - destruct H as (? & ? & ? & ? & ? & ? & ? & _ & _ & _ & _ & _ & Hok & _).
    congruence.
Qed.

Lemma message_content_truthy api_result raw :
  message_content api_result = inr raw -> truthy api_result = true.
Proof.
  unfold message_content, getitem_str, and_then.
  destruct api_result as [| | | | |?|[|[k v] entries]];
    simpl; try discriminate. reflexivity.
Qed.

End HandlerFacts.

(** ** Properties of the request pipeline *)

(** C1: when [GROQ_API_KEY] is unset and the document client is unset, every
    response of the handler carries the literal fallback constant as its
    [ai_analysis], with status [success] and [match_score] 85; and the
    handler does respond whenever the upload can be stored. *)
Theorem fallback_without_collaborators (cfg : Config) (r : SignupRequest) (f : FS.t) :
  GROQ_KEY cfg = None ->
  doc_client cfg = None ->
  (forall response,
     fst (handle cfg r f) = inr response ->
     response = envelope FALLBACK /\
     getitem_str response "status" = inr (PStr "success") /\
     and_then (getitem_str response "ai_analysis")
       (fun a => getitem_str a "match_score") = inr (PInt 85)) /\
  (forall f1,
     FS.write_file (temp_filename r) (file (resume r)) f = inr f1 ->
     fst (handle cfg r f) = inr (envelope FALLBACK)).
Proof.
  intros Hk Hc.
  assert (forall f1,
      FS.write_file (temp_filename r) (file (resume r)) f = inr f1 ->
      fst (handle cfg r f) = inr (envelope FALLBACK)) as Hsaved.
  { intros f1 Hw.
    rewrite (handle_saved cfg r f f1 FALLBACK Hw); [reflexivity|].
    rewrite (try_body_idle cfg r _ Hk Hc). reflexivity. }
  split; [|exact Hsaved].
  intros response Hres.
  destruct (FS.write_file (temp_filename r) (file (resume r)) f)
    as [e|f1] eqn:Hw.
  - rewrite (proj2 (handle_raises_iff cfg r f e) Hw) in Hres. discriminate.
  - rewrite (Hsaved f1 eq_refl) in Hres. injection Hres as <-.
    repeat split; reflexivity.
Qed.

Lemma fallback_without_collaborators_witness :
  fst (handle Sample.cfg_bare Sample.req_plain Sample.fs_empty)
  = inr (envelope FALLBACK).
Proof.
  apply (proj2 (fallback_without_collaborators Sample.cfg_bare Sample.req_plain
                  Sample.fs_empty eq_refl eq_refl)
           Sample.stored_plain).
  vm_compute. reflexivity.
Defined.

(** C2, as stated, fails: a file name with a directory part that does not
    exist makes [open] raise on line 76, before the [try] statement, and
    the exception leaves the handler. *)
Lemma save_error_escapes :
  fst (handle Sample.cfg_bare Sample.req_nested Sample.fs_empty)
    = inl (FileNotFoundError "temp_a/cv.pdf") /\
  ~ (exists a,
       fst (handle Sample.cfg_bare Sample.req_nested Sample.fs_empty)
       = inr (envelope a)).
Proof.
  assert (fst (handle Sample.cfg_bare Sample.req_nested Sample.fs_empty)
          = inl (FileNotFoundError "temp_a/cv.pdf")) as H
    by (vm_compute; reflexivity).
  split; [exact H|]. intros [a Ha]. rewrite H in Ha. discriminate.
Qed.

(** C2 (amended): for every request whose upload is stored at the temporary
    path, the handler returns the success envelope; an exception raised by
    the extraction, prompt, call or parse stage is absorbed: it is printed
    and the envelope carries the fallback constant. *)
Theorem envelope_when_stored (cfg : Config) (r : SignupRequest) (f f1 : FS.t) :
  FS.write_file (temp_filename r) (file (resume r)) f = inr f1 ->
  exists a,
    fst (handle cfg r f) = inr (envelope a) /\
    getitem_str (envelope a) "status" = inr (PStr "success") /\
    getitem_str (envelope a) "message" = inr (PStr "Signup Successful") /\
    getitem_str (envelope a) "ai_analysis" = inr a /\
    forall e,
      fst (try_body cfg r (entry r f1)) = inl e ->
      a = FALLBACK /\
      In (Printed (LogAIError e)) (events (snd (handle cfg r f))).
Proof.
  intros Hw.
  destruct (handle_saved_returns cfg r f f1 Hw) as (a & Ha & Hres & _ & _ & Hev).
  exists a. repeat split; try assumption; try reflexivity.
  - pose proof (try_body_raises_keeps cfg r (entry r f1) FALLBACK e eq_refl H).
    congruence.
  - rewrite Hev, H. apply in_app_iff. right. left. reflexivity.
Qed.

Lemma envelope_when_stored_witness :
  exists a,
    fst (handle Sample.cfg_groq_500 Sample.req_plain Sample.fs_empty)
    = inr (envelope a).
Proof.
  destruct (envelope_when_stored Sample.cfg_groq_500 Sample.req_plain
              Sample.fs_empty
              Sample.stored_plain)
    as (a & Ha & _).
  - vm_compute. reflexivity.
  - exists a. exact Ha.
Defined.

(** C3: when the chat-completion service answered the request with status
    200 and a body whose [choices[0].message.content] is text that
    [json.loads] accepts, the response carries exactly the parsed value,
    whatever its shape. *)
Theorem parsed_reply_replaces_default (cfg : Config) (r : SignupRequest) (f : FS.t)
    (url : string) (h : list (string * string)) (d : pyval)
    (response : HttpResponse) (api_result : pyval) (raw_text : string)
    (parsed : pyval) :
  In (HttpPost url h d (inr response)) (events (snd (handle cfg r f))) ->
  status_code response = 200 ->
  json response = inr api_result ->
  message_content api_result = inr (PStr raw_text) ->
  json_loads cfg raw_text = inr parsed ->
  truthy_env (GROQ_KEY cfg) = true /\
  fst (handle cfg r f) = inr (envelope parsed) /\
  ai_analysis (snd (handle cfg r f)) = Some parsed /\
  and_then (fst (handle cfg r f))
    (fun body => getitem_str body "ai_analysis") = inr parsed.
Proof.
  intros Hin Hst Hjson Hmsg Hloads.
  destruct (handle_post cfg r f _ _ _ _ Hin)
    as (f1 & key & text & _ & Hk & Hkt & _ & _ & _ & _ & _ & Hres & Hai).
  assert (reply_analysis cfg (inr response) = Some parsed) as Hreply.
  { unfold reply_analysis. rewrite Hst, Hjson. simpl.
    rewrite (message_content_truthy _ _ Hmsg), Hmsg, Hloads. reflexivity. }
  rewrite Hreply in Hres, Hai. rewrite Hk, Hres. auto.
Qed.

Lemma parsed_reply_replaces_default_witness :
  and_then (fst (handle Sample.cfg_groq Sample.req_plain Sample.fs_empty))
    (fun body => getitem_str body "ai_analysis") = inr Sample.reply_value.
Proof.
  refine (proj2 (proj2 (proj2 (parsed_reply_replaces_default Sample.cfg_groq Sample.req_plain
            Sample.fs_empty GROQ_URL (groq_headers "gsk_test")
            (groq_data (build_prompt "Student" "[]" RESUME_TEXT_SKIPPED))
            {| status_code := 200; text := Sample.reply_text;
               json := inr Sample.completion |}
            Sample.completion Sample.reply_text Sample.reply_value
            _ eq_refl eq_refl _ _)))).
  - vm_compute. right. right. left. reflexivity.
  - vm_compute. reflexivity.
  - vm_compute. reflexivity.
Defined.

(** C4: when the chat-completion service answered the request with a
    status other than 200, [call_groq_ai] returns [None], the response
    carries the fallback constant, and the handler returns normally. *)
Theorem non_200_falls_back (cfg : Config) (r : SignupRequest) (f : FS.t)
    (url : string) (h : list (string * string)) (d : pyval)
    (response : HttpResponse) :
  In (HttpPost url h d (inr response)) (events (snd (handle cfg r f))) ->
  status_code response <> 200 ->
  (exists key prompt,
     h = groq_headers key /\ d = groq_data prompt /\
     forall s, fst (call_groq_ai cfg key prompt s) = inr PNone) /\
  fst (handle cfg r f) = inr (envelope FALLBACK) /\
  ai_analysis (snd (handle cfg r f)) = Some FALLBACK.
Proof.
  intros Hin Hst.
  destruct (handle_post cfg r f _ _ _ _ Hin)
    as (f1 & key & text & _ & _ & _ & _ & -> & -> & -> & Hpost & Hres & Hai).
  apply Z.eqb_neq in Hst.
  assert (reply_analysis cfg (inr response) = None) as Hreply.
  { unfold reply_analysis. rewrite Hst. reflexivity. }
  rewrite Hreply in Hres, Hai.
  split; [|split; assumption].
  eexists _, _. split; [reflexivity|]. split; [reflexivity|].
  intros s. unfold call_groq_ai. unfold_ops. simpl.
  rewrite <- Hpost. simpl. rewrite Hst. reflexivity.
Qed.

Lemma non_200_falls_back_witness :
  fst (handle Sample.cfg_groq_500 Sample.req_plain Sample.fs_empty)
  = inr (envelope FALLBACK).
Proof.
  refine (proj1 (proj2 (non_200_falls_back Sample.cfg_groq_500 Sample.req_plain
            Sample.fs_empty GROQ_URL (groq_headers "gsk_test")
            (groq_data (build_prompt "Student" "[]" RESUME_TEXT_SKIPPED))
            {| status_code := 500; text := "Internal Server Error";
               json := inl JSONDecodeError |}
            _ _))).
  - vm_compute. right. right. left. reflexivity.
  - simpl. lia.
Defined.

(** C5, as stated, fails: lines 75-77 are outside the [try] statement, so
    when the copy raises after [open] created the file, the exception
    leaves the handler and the [finally] suite never runs: the temporary
    file stays, with what was written before the failure. *)
Lemma copy_error_leaves_temp_file :
  fst (handle Sample.cfg_bare Sample.req_plain Scenario.fs_small)
    = inl (OSError EFBIG) /\
  FS.files (fs (snd (handle Sample.cfg_bare Sample.req_plain Scenario.fs_small)))
    !! (Sample.app_dir ++ ["temp_cv.pdf"]) = Some [Byte.x25; Byte.x50] /\
  FS.exists_ "temp_cv.pdf"
    (fs (snd (handle Sample.cfg_bare Sample.req_plain Scenario.fs_small))) = true.
Proof. repeat split; vm_compute; reflexivity. Qed.

(** C5 (amended): for every request whose upload is written completely to
    the temporary path, the file is there when the [try] statement starts,
    the handler produces a response whatever the stages of the [try] suite
    did, and afterwards the path does not exist and no file is at its
    location; a request whose [open] fails creates no file and leaves the
    filesystem as it was. *)
Theorem temp_file_removed (cfg : Config) (r : SignupRequest) (f : FS.t) :
  (forall f1,
     FS.write_file (temp_filename r) (file (resume r)) f = inr f1 ->
     FS.read_file (temp_filename r) f1 = inr (file (resume r)) /\
     (exists a, fst (handle cfg r f) = inr (envelope a)) /\
     FS.exists_ (temp_filename r) (fs (snd (handle cfg r f))) = false /\
     exists l,
       fst (FS.open_wb (temp_filename r) f) = inr l /\
       FS.files (fs (snd (handle cfg r f))) !! l = None) /\
  (forall e,
     fst (FS.open_wb (temp_filename r) f) = inl e ->
     fst (handle cfg r f) = inl e /\ fs (snd (handle cfg r f)) = f).
Proof.
  split.
  - intros f1 Hw.
    destruct (handle_saved_returns cfg r f f1 Hw) as (a & _ & Hres & _ & Hfs & _).
    destruct (write_file_inv _ _ _ _ Hw) as (l & Hl & He & Hd & _ & _).
    assert (swept r f = FS.set_files f (delete l (FS.files f))) as Hsw.
    { unfold swept. destruct (FS.open_wb (temp_filename r) f) as [[e|l'] f'];
        simpl in Hl; congruence. }
    rewrite Hfs, Hsw. repeat split.
    + exact (read_after_write _ _ _ _ Hw).
    + exists a. exact Hres.
    + exact (exists_after_remove _ _ _ He Hd).
    + exists l. split; [exact Hl|]. simpl. apply lookup_delete_eq.
  - intros e He.
    assert (FS.save (temp_filename r) (file (resume r)) f = (inl e, f)) as Hs.
    { unfold FS.save.
      destruct (FS.open_wb (temp_filename r) f) as [[e'|l] f'] eqn:Ho;
        simpl in He; [|discriminate].
      rewrite (open_wb_fails_keeps _ _ _ _ Ho). congruence. }
    assert (FS.write_file (temp_filename r) (file (resume r)) f = inl e) as Hw
      by (apply write_file_save; rewrite Hs; reflexivity).
    rewrite (handle_unsaved cfg r f e Hw), Hs. split; reflexivity.
Qed.

Lemma temp_file_removed_witness :
  FS.exists_ (temp_filename Sample.req_plain)
    (fs (snd (handle Scenario.cfg_azure_down Sample.req_plain Scenario.fs_used)))
  = false.
Proof.
  refine (proj1 (proj2 (proj2 (proj1 (temp_file_removed Scenario.cfg_azure_down
            Sample.req_plain Scenario.fs_used)
            (FS.set_files Scenario.fs_used
               (<[Sample.app_dir ++ ["temp_cv.pdf"] := file (resume Sample.req_plain)]>
                  (FS.files Scenario.fs_used))) _)))).
  vm_compute. reflexivity.
Defined.

(** C6: the fallback constant has the AnalysisResult shape. *)
Theorem fallback_is_valid : Shape.valid_AnalysisResult FALLBACK = true.
Proof. reflexivity. Qed.

(** The shape is not checked on the way out: the reply configured in
    [Sample.cfg_groq] lacks most fields and is returned as it is. *)
Example unchecked_reply_passes_through :
  Shape.valid_AnalysisResult Sample.reply_value = false /\
  fst (handle Sample.cfg_groq Sample.req_plain Sample.fs_empty)
  = inr (envelope Sample.reply_value).
Proof. split; vm_compute; reflexivity. Qed.

(** C7: the prompt of every chat-completion call is the template of lines
    106-124 around the candidate's name, the raw [selected_domains] field
    and the first 2000 characters of [resume_text]: all of the text when
    it has at most 2000 characters, its first 2000 otherwise; nothing else
    of [resume_text] reaches the prompt. *)
Theorem prompt_embeds_bounded_resume (cfg : Config) (r : SignupRequest) (f : FS.t)
    (url : string) (h : list (string * string)) (d : pyval)
    (res : result HttpResponse) :
  In (HttpPost url h d res) (events (snd (handle cfg r f))) ->
  exists text excerpt prompt,
    extracted_text cfg (file (resume r)) = inr text /\
    excerpt = str_take 2000 text /\
    prompt =
      LF +:+
      "            Act as a Career Coach for " +:+ full_name r +:+ "." +:+ LF +:+
      "            Interests: " +:+ selected_domains r +:+ LF +:+
      "            Resume: " +:+ excerpt +:+ LF +:+
      unlines PROMPT_SCHEMA +:+
      "            " /\
    and_then (getitem_str d "messages") (fun messages =>
      and_then (getitem_int messages 1) (fun user =>
        getitem_str user "content")) = inr (PStr prompt) /\
    (String.length excerpt <= 2000)%nat /\
    (exists rest, text = excerpt +:+ rest) /\
    (forall other,
       str_take 2000 other = excerpt ->
       build_prompt (full_name r) (selected_domains r) other = prompt) /\
    String.length excerpt = Nat.min 2000 (String.length text) /\
    ((String.length text <= 2000)%nat -> excerpt = text).
Proof.
  intros Hin.
  destruct (handle_post cfg r f _ _ _ _ Hin)
    as (f1 & key & text & _ & _ & _ & Htext & _ & _ & -> & _).
  exists text, (str_take 2000 text), (build_prompt (full_name r) (selected_domains r) text).
  split; [exact Htext|]. split; [reflexivity|]. split; [reflexivity|].
  split; [reflexivity|]. split; [apply str_take_length|].
  split; [apply str_take_is_prefix|].
  split; [|split].
  - intros other Hother. unfold build_prompt, RESUME_LIMIT. rewrite Hother.
    reflexivity.
  - destruct (Nat.le_ge_cases 2000 (String.length text)) as [Hlong|Hshort].
    + rewrite (str_take_full _ _ Hlong). lia.
    + rewrite (str_take_all _ _ Hshort). lia.
  - apply str_take_all.
Qed.

Lemma prompt_embeds_bounded_resume_witness :
  exists excerpt,
    excerpt = str_take 2000 RESUME_TEXT_SKIPPED /\
    excerpt = RESUME_TEXT_SKIPPED /\
    String.length excerpt = 36%nat.
Proof.
  destruct (prompt_embeds_bounded_resume Sample.cfg_groq Sample.req_plain
              Sample.fs_empty GROQ_URL (groq_headers "gsk_test")
              (groq_data (build_prompt "Student" "[]" RESUME_TEXT_SKIPPED))
              (inr {| status_code := 200; text := Sample.reply_text;
                      json := inr Sample.completion |}))
    as (text & excerpt & prompt & H1 & H2 & _ & _ & _ & _ & _ & Hlen & Hall).
  - vm_compute. right. right. left. reflexivity.
  - assert (text = RESUME_TEXT_SKIPPED) as ->
      by (vm_compute in H1; injection H1 as <-; reflexivity).
    exists excerpt. split; [exact H2|]. split.
    + apply Hall. vm_compute. lia.
    + rewrite Hlen. reflexivity.
Defined.

(** C8: when the endpoint or the credential is empty or unset, or the
    credential contains the marker [YOUR-KEY], or the client constructor
    raises, [doc_client] stays unset, and then no request served by the
    process runs the extraction stage: no call reaches the document
    service and [resume_text] keeps its sentinel. *)
Theorem extraction_skipped_without_client (cfg : Config) :
  client_unavailable cfg ->
  doc_client cfg = None /\
  forall (rs : list SignupRequest) (f : FS.t),
    Forall extraction_skipped (serve cfg rs f).
Proof.
  intros Hun.
  assert (doc_client cfg = None) as Hc.
  { unfold doc_client.
    destruct Hun as [H | [H | [(key & a & b & Hk & Hm) | (ep & key & e & He & Hk & Hc)]]].
    - destruct (DOC_ENDPOINT cfg) as [ep|]; [|reflexivity].
      destruct (DOC_KEY cfg); [|reflexivity]. rewrite H. reflexivity.
    - destruct (DOC_ENDPOINT cfg) as [ep|]; [|reflexivity].
      destruct (DOC_KEY cfg); [|reflexivity]. rewrite H, andb_false_r. reflexivity.
    - destruct (DOC_ENDPOINT cfg) as [ep|]; [|reflexivity].
      rewrite Hk.
      assert (str_contains PLACEHOLDER key = true) as ->
        by (apply str_contains_spec; eauto).
      rewrite andb_false_r. reflexivity.
    - rewrite He, Hk, Hc. destruct (_ && _); reflexivity. }
  split; [exact Hc|].
  intros rs. induction rs as [|r rs IH]; intros f; simpl.
  - constructor.
  - constructor; [|apply IH].
    destruct (FS.write_file (temp_filename r) (file (resume r)) f)
      as [e|f1] eqn:Hw.
    + rewrite (handle_unsaved cfg r f e Hw). split; [reflexivity | left; reflexivity].
    + destruct (try_body_bound cfg r (entry r f1) FALLBACK eq_refl) as [a Ha].
      rewrite (handle_saved cfg r f f1 a Hw Ha). split; simpl.
      * apply forallb_forall. intros ev Hev.
        destruct ev as [l | c m doc ct res | url h d res]; try reflexivity.
        exfalso. apply in_app_iff in Hev. destruct Hev as [Hev|Hev].
        -- apply (try_body_no_client cfg r _ Hc) in Hev. simpl in Hev.
           destruct Hev as [Hev|[]]. discriminate.
        -- destruct (fst (try_body cfg r (entry r f1))); simpl in Hev;
             [destruct Hev as [Hev|[]]; discriminate | contradiction].
      * right. rewrite (try_body_no_client_text cfg r _ Hc). reflexivity.
Qed.

Lemma extraction_skipped_without_client_witness :
  doc_client Sample.cfg_placeholder = None /\
  Forall extraction_skipped
    (serve Sample.cfg_placeholder [Sample.req_plain; Sample.req_nested]
       Sample.fs_empty).
Proof.
  destruct (extraction_skipped_without_client Sample.cfg_placeholder) as [H1 H2].
  - right. right. left. exists "PASTE-YOUR-KEY-HERE", "PASTE-", "-HERE".
    split; reflexivity.
  - split; [exact H1 | apply H2].
Defined.

(** C9: the [ai_analysis] of a response is the fallback constant or one
    complete value that [json.loads] returned for the message content of
    the service's reply; when the [try] suite raises, parsing included, it
    is the fallback constant.  The handler raises only when the upload
    cannot be stored. *)
Theorem analysis_is_fallback_or_parsed (cfg : Config) (r : SignupRequest) (f : FS.t) :
  match FS.write_file (temp_filename r) (file (resume r)) f with
  | inr f1 =>
      exists a,
        fst (handle cfg r f) = inr (envelope a) /\
        ai_analysis (snd (handle cfg r f)) = Some a /\
        (a = FALLBACK \/
         exists url h d response api_result raw_text,
           In (HttpPost url h d (inr response)) (events (snd (handle cfg r f))) /\
           status_code response = 200 /\
           json response = inr api_result /\
           message_content api_result = inr (PStr raw_text) /\
           json_loads cfg raw_text = inr a) /\
        (forall e, fst (try_body cfg r (entry r f1)) = inl e -> a = FALLBACK)
  | inl e => fst (handle cfg r f) = inl e
  end.
Proof.
  destruct (FS.write_file (temp_filename r) (file (resume r)) f)
    as [e|f1] eqn:Hw.
  - rewrite (handle_unsaved cfg r f e Hw). reflexivity.
  - destruct (handle_saved_returns cfg r f f1 Hw) as (a & Ha & Hres & Hai & _ & Hev).
    exists a. split; [exact Hres|]. split; [exact Hai|]. split.
    + destruct (try_body_analysis cfg r (entry r f1) FALLBACK eq_refl) as [H|H].
      * left. congruence.
      * right.
        destruct H as (url & h & d & resp & api & raw & parsed
                       & Hin & Hst & Hj & Hm & Hl & _ & Hp).
        exists url, h, d, resp, api, raw. rewrite Hev.
        repeat split; try assumption.
        -- apply in_app_iff. left. exact Hin.
        -- congruence.
    + intros e He.
      pose proof (try_body_raises_keeps cfg r (entry r f1) FALLBACK e eq_refl He).
      congruence.
Qed.

(** C10: two requests that differ only in [email] and [degree] get the same
    response, leave the same filesystem and produce the same events, the
    prompt sent to the language model included. *)
Theorem email_and_degree_do_not_interfere (cfg : Config) (r1 r2 : SignupRequest)
    (f : FS.t) :
  full_name r1 = full_name r2 ->
  selected_domains r1 = selected_domains r2 ->
  resume r1 = resume r2 ->
  handle cfg r1 f = handle cfg r2 f.
Proof.
  intros Hn Hd Hr.
  unfold handle, signup_student, try_body, read_resume, ai_stage, cleanup,
    temp_filename.
  rewrite Hn, Hd, Hr. reflexivity.
Qed.

Lemma email_and_degree_do_not_interfere_witness :
  email Sample.req_plain <> email Sample.req_other_contact /\
  degree Sample.req_plain <> degree Sample.req_other_contact /\
  handle Sample.cfg_groq Sample.req_plain Sample.fs_empty
  = handle Sample.cfg_groq Sample.req_other_contact Sample.fs_empty.
Proof.
  split; [discriminate|]. split; [discriminate|].
  apply (email_and_degree_do_not_interfere Sample.cfg_groq Sample.req_plain
           Sample.req_other_contact Sample.fs_empty); reflexivity.
Defined.

(** ** More about the [try] suite and the trace *)

Section TraceFacts.

Variable cfg : Config.

Lemma count_events_app p xs ys :
  count_events p (xs ++ ys) = (count_events p xs + count_events p ys)%nat.
Proof. induction xs as [|x xs IH]; simpl; [reflexivity | rewrite IH; lia]. Qed.

(** The suite adds at most one call of each kind to the trace. *)
Lemma try_body_counts r s :
  (count_events is_post (events (snd (try_body cfg r s)))
     <= count_events is_post (events s) + 1)%nat /\
  (count_events is_analyze (events (snd (try_body cfg r s)))
     <= count_events is_analyze (events s) + 1)%nat.
Proof.
  unfold_body. simpl. split_cases.
  all: rewrite ?count_events_app; simpl; lia.
Qed.

(** A call to the document service in the trace is the one of line 100. *)
Lemma try_body_analyze r s doc0 c m doc ct res :
  FS.read_file (temp_filename r) (fs s) = inr doc0 ->
  In (AnalyzeDocument c m doc ct res) (events (snd (try_body cfg r s))) ->
  In (AnalyzeDocument c m doc ct res) (events s) \/
  (doc_client cfg = Some c /\ m = "prebuilt-read" /\ doc = doc0 /\
   ct = "application/octet-stream" /\
   res = begin_analyze_document cfg c m doc ct).
Proof.
  intros Hdoc. unfold_body. simpl.
  repeat (first [rewrite Hdoc | case_match]; simplify_eq/=).
  all: intros Hin; split_in Hin; try (left; assumption).
  all: right; repeat split; try reflexivity; try (symmetry; assumption).
Qed.

(** The suite itself never prints the line of the [except] clause. *)
Lemma try_body_no_except_line r s e :
  In (Printed (LogAIError e)) (events (snd (try_body cfg r s))) ->
  In (Printed (LogAIError e)) (events s).
Proof.
  unfold_body. simpl. split_cases.
  all: intros Hin; split_in Hin; assumption.
Qed.

(** A chat-completion call that raised ends the suite with its exception. *)
Lemma try_body_post_raised r s url h d e :
  In (HttpPost url h d (inl e)) (events (snd (try_body cfg r s))) ->
  In (HttpPost url h d (inl e)) (events s) \/
  fst (try_body cfg r s) = inl e.
Proof.
  unfold_body. simpl. split_cases.
  all: intros Hin; split_in Hin; try (left; assumption).
  all: right; congruence.
Qed.

(** A reply with another status than 200 is logged and does not raise. *)
Lemma try_body_post_rejected r s url h d response :
  In (HttpPost url h d (inr response)) (events (snd (try_body cfg r s))) ->
  status_code response <> 200 ->
  In (HttpPost url h d (inr response)) (events s) \/
  (fst (try_body cfg r s) = inr tt /\
   In (Printed (LogGroqError (status_code response) (text response)))
      (events (snd (try_body cfg r s)))).
Proof.
  unfold_body. simpl. split_cases.
  all: intros Hin Hst; split_in Hin; try (left; assumption).
  all: try (exfalso; apply Hst; apply Z.eqb_eq; congruence).
  all: right; split; [reflexivity|].
  all: rewrite ?in_app_iff; simpl; auto.
Qed.

(** The success line is printed exactly on the path that assigned a
    parsed reply. *)
Lemma try_body_success_line r s :
  In (Printed LogGroqSuccess) (events (snd (try_body cfg r s))) ->
  In (Printed LogGroqSuccess) (events s) \/
  exists url h d response api_result raw_text parsed,
    In (HttpPost url h d (inr response)) (events (snd (try_body cfg r s))) /\
    status_code response = 200 /\
    json response = inr api_result /\
    message_content api_result = inr (PStr raw_text) /\
    json_loads cfg raw_text = inr parsed /\
    fst (try_body cfg r s) = inr tt /\
    ai_analysis (snd (try_body cfg r s)) = Some parsed.
Proof.
  unfold_body. simpl. split_cases.
  all: intros Hin; split_in Hin; try (left; assumption).
  all: right; eexists _, _, _, _, _, _, _.
  all: rewrite ?in_app_iff; simpl.
  all: repeat split;
    [ left; right; left; reflexivity
    | apply Z.eqb_eq; eassumption
    | eassumption .. ].
Qed.

(** When the extraction stage goes through and a key is configured, the
    chat-completion call is made with the prompt built from the text. *)
Lemma try_body_calls r s t0 doc key text :
  resume_text s = Some t0 ->
  FS.read_file (temp_filename r) (fs s) = inr doc ->
  match doc_client cfg with
  | None => text = t0
  | Some c => begin_analyze_document cfg c "prebuilt-read" doc
                "application/octet-stream" = inr text
  end ->
  GROQ_KEY cfg = Some key -> truthy_env (Some key) = true ->
  In (HttpPost GROQ_URL (groq_headers key)
        (groq_data (build_prompt (full_name r) (selected_domains r) text))
        (requests_post cfg GROQ_URL (groq_headers key)
           (groq_data (build_prompt (full_name r) (selected_domains r) text))))
     (events (snd (try_body cfg r s))).
Proof.
  intros Ht Hdoc Htext Hk Hkt. unfold_body. simpl.
  destruct key as [|k0 key]; [discriminate|]. rewrite Hk.
  destruct (doc_client cfg) as [c|]; simpl.
  - rewrite Hdoc. simpl. rewrite Htext. simpl.
    split_cases; rewrite ?in_app_iff; simpl; auto 10.
  - subst text. rewrite Ht. simpl.
    split_cases; rewrite ?in_app_iff; simpl; auto 10.
Qed.

(** When the document service raises, the suite ends there. *)
Lemma try_body_extraction_raises r s doc c e :
  FS.read_file (temp_filename r) (fs s) = inr doc ->
  doc_client cfg = Some c ->
  begin_analyze_document cfg c "prebuilt-read" doc "application/octet-stream"
    = inl e ->
  try_body cfg r s =
    (inl e,
     mkState (fs s)
       (events s ++ [Printed LogReadingPdf;
                     AnalyzeDocument c "prebuilt-read" doc
                       "application/octet-stream" (inl e)])
       (resume_text s) (ai_analysis s)).
Proof.
  intros Hdoc Hc He. unfold_body. rewrite Hc. simpl. rewrite Hdoc. simpl.
  rewrite He. simpl. rewrite <- app_assoc. reflexivity.
Qed.

(** Without a client the suite reads neither the filesystem nor the
    uploaded file: it behaves the same on any filesystem and for any
    request with the same name and interests. *)
Lemma try_body_no_client_blind r1 r2 s1 s2 :
  doc_client cfg = None ->
  full_name r1 = full_name r2 ->
  selected_domains r1 = selected_domains r2 ->
  events s1 = events s2 ->
  resume_text s1 = resume_text s2 ->
  ai_analysis s1 = ai_analysis s2 ->
  fst (try_body cfg r1 s1) = fst (try_body cfg r2 s2) /\
  events (snd (try_body cfg r1 s1)) = events (snd (try_body cfg r2 s2)) /\
  resume_text (snd (try_body cfg r1 s1)) = resume_text (snd (try_body cfg r2 s2)) /\
  ai_analysis (snd (try_body cfg r1 s1)) = ai_analysis (snd (try_body cfg r2 s2)).
Proof.
  intros Hc Hn Hd He Ht Ha.
  destruct s1 as [fa ea ta aa], s2 as [fb eb tb ab]. simpl in *. subst.
  unfold_body. rewrite Hc, Hn, Hd. simpl.
  split_cases; auto.
Qed.

(** The trace of a request: one line when the upload is not stored,
    else the trace of the suite and the line of the [except] clause. *)
Lemma handle_trace r f :
  (exists e,
     FS.write_file (temp_filename r) (file (resume r)) f = inl e /\
     events (snd (handle cfg r f)) = [Printed (LogProcessing (full_name r))]) \/
  (exists f1,
     FS.write_file (temp_filename r) (file (resume r)) f = inr f1 /\
     events (snd (handle cfg r f)) =
       events (snd (try_body cfg r (entry r f1)))
         ++ except_line (fst (try_body cfg r (entry r f1)))).
Proof.
  destruct (FS.write_file (temp_filename r) (file (resume r)) f)
    as [e|f1] eqn:Hw.
  - left. exists e. rewrite (handle_unsaved cfg r f e Hw). auto.
  - right. exists f1.
    destruct (handle_saved_returns cfg r f f1 Hw) as (a & _ & _ & _ & _ & Hev).
    auto.
Qed.

(** What a request leaves on the filesystem. *)
Lemma handle_fs r f :
  fs (snd (handle cfg r f)) =
    match FS.write_file (temp_filename r) (file (resume r)) f with
    | inr _ => swept r f
    | inl _ => snd (FS.save (temp_filename r) (file (resume r)) f)
    end.
Proof.
  destruct (FS.write_file (temp_filename r) (file (resume r)) f)
    as [e|f1] eqn:Hw.
  - rewrite (handle_unsaved cfg r f e Hw). reflexivity.
  - destruct (handle_saved_returns cfg r f f1 Hw) as (a & _ & _ & _ & Hfs & _).
    exact Hfs.
Qed.

(** A request touches the files only, and only at the location its
    temporary path resolves to. *)
Lemma handle_fs_frame r f :
  FS.dirs (fs (snd (handle cfg r f))) = FS.dirs f /\
  FS.cwd (fs (snd (handle cfg r f))) = FS.cwd f /\
  FS.max_file_size (fs (snd (handle cfg r f))) = FS.max_file_size f /\
  forall l,
    fst (FS.open_wb (temp_filename r) f) <> inr l ->
    FS.files (fs (snd (handle cfg r f))) !! l = FS.files f !! l.
Proof.
  rewrite handle_fs. unfold swept, FS.save.
  destruct (FS.write_file (temp_filename r) (file (resume r)) f) as [e|f1].
  - destruct (FS.open_wb (temp_filename r) f) as [[e1|l1] f0] eqn:Ho; simpl.
    + rewrite (open_wb_fails_keeps _ _ _ _ Ho). auto.
    + destruct (open_wb_inv _ _ _ _ Ho) as (_ & _ & ->).
      unfold FS.write. simpl.
      repeat case_match; simpl;
        (split; [reflexivity|]; split; [reflexivity|];
         split; [simpl; congruence|]);
        intros l Hl; rewrite !lookup_insert_ne by congruence; reflexivity.
  - destruct (FS.open_wb (temp_filename r) f) as [[e1|l1] f0]; simpl.
    + auto.
    + split; [reflexivity|]. split; [reflexivity|]. split; [reflexivity|].
      intros l Hl. apply lookup_delete_ne. congruence.
Qed.

End TraceFacts.

(** ** Further properties of the module *)

(** X1: the module-level client is set exactly when the endpoint and the
    credential are both non-empty, the credential does not contain the
    marker [YOUR-KEY], and the constructor returned a client. *)
Theorem doc_client_set_iff (cfg : Config) (c : Client) :
  doc_client cfg = Some c <->
  exists endpoint key,
    DOC_ENDPOINT cfg = Some endpoint /\ endpoint <> EmptyString /\
    DOC_KEY cfg = Some key /\ key <> EmptyString /\
    (forall before after, key <> before +:+ PLACEHOLDER +:+ after) /\
    DocumentIntelligenceClient cfg endpoint key = inr c.
Proof.
  unfold doc_client. split.
  - destruct (DOC_ENDPOINT cfg) as [endpoint|]; [|discriminate].
    destruct (DOC_KEY cfg) as [key|]; [|discriminate].
    destruct endpoint as [|e0 endpoint]; [discriminate|].
    destruct key as [|k0 key]; [discriminate|].
    destruct (str_contains PLACEHOLDER (String k0 key)) eqn:Hm; [discriminate|].
    cbn [truthy_env andb negb].
    destruct (DocumentIntelligenceClient cfg _ _) as [e|c'] eqn:Hc; [discriminate|].
    intros [= <-]. exists (String e0 endpoint), (String k0 key).
    repeat split; try discriminate; try assumption.
    intros before after Heq.
    assert (str_contains PLACEHOLDER (String k0 key) = true) as Hyes
      by (apply str_contains_spec; eauto).
    congruence.
  - intros (endpoint & key & -> & Hne & -> & Hnk & Hm & Hc).
    destruct endpoint as [|e0 endpoint]; [congruence|].
    destruct key as [|k0 key]; [congruence|].
    destruct (str_contains PLACEHOLDER (String k0 key)) eqn:Hyes.
    + apply str_contains_spec in Hyes. destruct Hyes as (b & a & Hyes).
      exfalso. exact (Hm b a Hyes).
    + cbn [truthy_env andb negb]. rewrite Hc. reflexivity.
Qed.

(** X2: the subscript chain of line 130 yields a value exactly when the
    decoded body is a dict whose [choices] is a list with a first element
    that is a dict whose [message] is a dict with a [content] key; a
    missing key, an empty list or any other type at any step raises. *)
Theorem message_content_inr_iff (api_result content : pyval) :
  message_content api_result = inr content <->
  exists entries first rest message,
    api_result = PDict entries /\
    dict_get entries "choices" = Some (PList (PDict first :: rest)) /\
    dict_get first "message" = Some (PDict message) /\
    dict_get message "content" = Some content.
Proof.
  unfold message_content, and_then, getitem_str, getitem_int. split.
  - destruct api_result as [| | | | | |entries]; try discriminate.
    destruct (dict_get entries "choices") as [choices|] eqn:Hc; [|discriminate].
    destruct choices as [| | | |s|items|e]; try discriminate.
    + destruct (str_nth s 0); discriminate.
    + destruct items as [|x rest]; simpl; [discriminate|].
      destruct x as [| | | | | |first]; try discriminate.
      destruct (dict_get first "message") as [m|] eqn:Hm; [|discriminate].
      destruct m as [| | | | | |message]; try discriminate.
      destruct (dict_get message "content") as [x|] eqn:Hx; [|discriminate].
      intros [= <-]. exists entries, first, rest, message. auto.
  - intros (entries & first & rest & message & -> & Hc & Hm & Hx).
    rewrite Hc. simpl. rewrite Hm, Hx. reflexivity.
Qed.

(** X3: a reply with status 200 that lines 129-131 cannot use (body not
    JSON, empty or otherwise false body, missing key or index, content
    that is not text, content that [json.loads] rejects) leaves the
    response with the fallback constant. *)
Theorem unusable_reply_falls_back (cfg : Config) (r : SignupRequest) (f : FS.t)
    (url : string) (h : list (string * string)) (d : pyval)
    (response : HttpResponse) :
  In (HttpPost url h d (inr response)) (events (snd (handle cfg r f))) ->
  status_code response = 200 ->
  reply_unusable cfg response ->
  fst (handle cfg r f) = inr (envelope FALLBACK) /\
  ai_analysis (snd (handle cfg r f)) = Some FALLBACK.
Proof.
  intros Hin Hst Hbad.
  destruct (handle_post cfg r f _ _ _ _ Hin)
    as (f1 & key & text & _ & _ & _ & _ & _ & _ & _ & _ & Hres & Hai).
  assert (reply_analysis cfg (inr response) = None) as Hreply.
  { unfold reply_analysis. rewrite Hst. simpl.
    destruct Hbad as [[e He] | (api & Hj & Hbad)].
    - rewrite He. reflexivity.
    - rewrite Hj.
      destruct Hbad as [Hf | [[e He] | [(raw & Hm & Hraw) | (s & e & Hm & Hl)]]].
      + rewrite Hf. reflexivity.
      + rewrite He. destruct (truthy api); reflexivity.
      + rewrite Hm. destruct (truthy api); [|reflexivity].
        destruct raw; try reflexivity. exfalso. eapply Hraw. reflexivity.
      + rewrite Hm, Hl. destruct (truthy api); reflexivity. }
  rewrite Hreply in Hres, Hai. auto.
Qed.

Lemma unusable_reply_falls_back_witness :
  fst (handle Scenario.cfg_groq_no_choice Sample.req_plain Sample.fs_empty)
  = inr (envelope FALLBACK).
Proof.
  refine (proj1 (unusable_reply_falls_back Scenario.cfg_groq_no_choice
            Sample.req_plain Sample.fs_empty GROQ_URL (groq_headers "gsk_test")
            (groq_data (build_prompt "Student" "[]" RESUME_TEXT_SKIPPED))
            {| status_code := 200; text := "{}";
               json := inr (PDict [("choices", PList [])]) |}
            _ eq_refl _)).
  - vm_compute. right. right. left. reflexivity.
  - right. exists (PDict [("choices", PList [])]). split; [reflexivity|].
    right. left. exists IndexError. reflexivity.
Defined.

(** X4: when [requests.post] itself raises, the exception is caught by the
    [except] clause: it is printed, and the response carries the fallback
    constant. *)
Theorem transport_error_falls_back (cfg : Config) (r : SignupRequest) (f : FS.t)
    (url : string) (h : list (string * string)) (d : pyval) (e : PyExc) :
  In (HttpPost url h d (inl e)) (events (snd (handle cfg r f))) ->
  fst (handle cfg r f) = inr (envelope FALLBACK) /\
  In (Printed (LogAIError e)) (events (snd (handle cfg r f))).
Proof.
  intros Hin.
  destruct (handle_post cfg r f _ _ _ _ Hin)
    as (f1 & key & text & Hw & _ & _ & _ & _ & _ & _ & _ & Hres & _).
  split; [exact Hres|].
  destruct (handle_trace cfg r f) as [(e' & Hw' & _) | (f1' & Hw' & Hev)];
    [congruence|].
  assert (f1' = f1) as -> by congruence.
  rewrite Hev in *. apply in_app_iff in Hin. apply in_app_iff.
  destruct Hin as [Hin|Hin].
  - apply try_body_post_raised in Hin. destruct Hin as [Hin|Hraised].
    + simpl in Hin. destruct Hin as [Hin|[]]. discriminate.
    + right. rewrite Hraised. left. reflexivity.
  - destruct (fst (try_body cfg r (entry r f1))); simpl in Hin;
      [destruct Hin as [Hin|[]]; discriminate | contradiction].
Qed.

Lemma transport_error_falls_back_witness :
  fst (handle Scenario.cfg_groq_offline Sample.req_plain Sample.fs_empty)
  = inr (envelope FALLBACK).
Proof.
  refine (proj1 (transport_error_falls_back Scenario.cfg_groq_offline
            Sample.req_plain Sample.fs_empty GROQ_URL (groq_headers "gsk_test")
            (groq_data (build_prompt "Student" "[]" RESUME_TEXT_SKIPPED))
            (ExternalError "connection refused") _)).
  vm_compute. right. right. left. reflexivity.
Defined.

(** X5: when the document service raises, the [try] suite ends there: the
    language model is not called although a key may be configured, the
    exception is printed and the response carries the fallback constant. *)
Theorem extraction_error_skips_model (cfg : Config) (r : SignupRequest)
    (f f1 : FS.t) (c : Client) (e : PyExc) :
  FS.write_file (temp_filename r) (file (resume r)) f = inr f1 ->
  doc_client cfg = Some c ->
  begin_analyze_document cfg c "prebuilt-read" (file (resume r))
    "application/octet-stream" = inl e ->
  fst (handle cfg r f) = inr (envelope FALLBACK) /\
  events (snd (handle cfg r f)) =
    [ Printed (LogProcessing (full_name r));
      Printed LogReadingPdf;
      AnalyzeDocument c "prebuilt-read" (file (resume r))
        "application/octet-stream" (inl e);
      Printed (LogAIError e) ].
Proof.
  intros Hw Hc He.
  pose proof (try_body_extraction_raises cfg r (entry r f1) _ c e
                (read_after_write _ _ _ _ Hw) Hc He) as Hb.
  assert (ai_analysis (snd (try_body cfg r (entry r f1))) = Some FALLBACK) as Ha
    by (rewrite Hb; reflexivity).
  rewrite (handle_saved cfg r f f1 FALLBACK Hw Ha), Hb. split; reflexivity.
Qed.

Lemma extraction_error_skips_model_witness :
  fst (handle Scenario.cfg_azure_down Sample.req_plain Sample.fs_empty)
  = inr (envelope FALLBACK).
Proof.
  refine (proj1 (extraction_error_skips_model Scenario.cfg_azure_down
            Sample.req_plain Sample.fs_empty
            Sample.stored_plain
            Scenario.the_client (ExternalError "connection refused") _ _ _)).
  - vm_compute. reflexivity.
  - vm_compute. reflexivity.
  - reflexivity.
Defined.

(** X6: what the document service receives is the uploaded file as it was
    stored: the bytes of the upload, the model [prebuilt-read] and the
    content type [application/octet-stream], through the module-level
    client. *)
Theorem document_sent_is_upload (cfg : Config) (r : SignupRequest) (f : FS.t)
    (c : Client) (m : string) (doc : list Byte.byte) (ct : string)
    (res : result string) :
  In (AnalyzeDocument c m doc ct res) (events (snd (handle cfg r f))) ->
  doc_client cfg = Some c /\ m = "prebuilt-read" /\ doc = file (resume r) /\
  ct = "application/octet-stream" /\
  res = begin_analyze_document cfg c m doc ct.
Proof.
  intros Hin.
  destruct (handle_trace cfg r f) as [(e & _ & Hev) | (f1 & Hw & Hev)];
    rewrite Hev in Hin.
  - simpl in Hin. destruct Hin as [Hin|[]]. discriminate.
  - apply in_app_iff in Hin. destruct Hin as [Hin|Hin].
    + apply (try_body_analyze cfg r (entry r f1) (file (resume r))) in Hin;
        [|exact (read_after_write _ _ _ _ Hw)].
      destruct Hin as [Hin|Hin]; [|exact Hin].
      simpl in Hin. destruct Hin as [Hin|[]]. discriminate.
    + destruct (fst (try_body cfg r (entry r f1))); simpl in Hin;
        [destruct Hin as [Hin|[]]; discriminate | contradiction].
Qed.

Lemma document_sent_is_upload_witness :
  doc_client Scenario.cfg_full = Some Scenario.the_client.
Proof.
  refine (proj1 (document_sent_is_upload Scenario.cfg_full Sample.req_plain
            Sample.fs_empty Scenario.the_client "prebuilt-read"
            (file (resume Sample.req_plain)) "application/octet-stream"
            (inr Scenario.extracted) _)).
  vm_compute. right. right. left. reflexivity.
Defined.

(** X7: a request changes nothing on the filesystem besides the file its
    temporary path leads to: every other location keeps its content and
    the directories are the same, whether the handler returns or raises.
    Locations are compared, not path strings: a file name with [..] in it
    can lead to a file that has another name. *)
Theorem other_paths_untouched (cfg : Config) (r : SignupRequest) (f : FS.t)
    (l : list string) :
  fst (FS.open_wb (temp_filename r) f) <> inr l ->
  FS.files (fs (snd (handle cfg r f))) !! l = FS.files f !! l /\
  FS.dirs (fs (snd (handle cfg r f))) = FS.dirs f.
Proof.
  intros Hl. destruct (handle_fs_frame cfg r f) as (Hd & _ & _ & Hf).
  split; [apply Hf; exact Hl | exact Hd].
Qed.

Lemma other_paths_untouched_witness :
  FS.files (fs (snd (handle Scenario.cfg_full Sample.req_plain Scenario.fs_used)))
    !! (Sample.app_dir ++ ["notes.txt"])
  = FS.files Scenario.fs_used !! (Sample.app_dir ++ ["notes.txt"]).
Proof.
  refine (proj1 (other_paths_untouched Scenario.cfg_full Sample.req_plain
                   Scenario.fs_used (Sample.app_dir ++ ["notes.txt"]) _)).
  vm_compute. intros H. discriminate H.
Defined.

(** The file name [a/../notes.txt] leads to [notes.txt] in the working
    directory when [temp_a] is a directory: the request overwrites that
    file and then removes it. *)
Example dotdot_reaches_sibling_file :
  fst (FS.open_wb (temp_filename (Scenario.req_named "a/../notes.txt"))
         Scenario.fs_used) = inr (Sample.app_dir ++ ["notes.txt"]) /\
  FS.files Scenario.fs_used !! (Sample.app_dir ++ ["notes.txt"])
    = Some [Byte.x41] /\
  FS.files (fs (snd (handle Sample.cfg_bare (Scenario.req_named "a/../notes.txt")
                       Scenario.fs_used)))
    !! (Sample.app_dir ++ ["notes.txt"]) = None.
Proof. repeat split; vm_compute; reflexivity. Qed.

Lemma components_cons c s :
  Ascii.eqb c "/"%char = false ->
  FS.components (String c s) = String c (first_component s) :: tl (FS.components s).
Proof.
  intros Hc. unfold first_component. simpl. rewrite Hc.
  destruct (FS.components s); reflexivity.
Qed.

Lemma components_temp name :
  FS.components ("temp_" +:+ name)
  = ("temp_" +:+ first_component name) :: tl (FS.components name).
Proof.
  change ("temp_" +:+ name)
    with (String "t" (String "e" (String "m" (String "p" (String "_" name))))).
  assert (forall c s, Ascii.eqb c "/"%char = false ->
            first_component (String c s) = String c (first_component s) /\
            tl (FS.components (String c s)) = tl (FS.components s)) as Hstep.
  { intros c s Hc. unfold first_component at 1.
    rewrite (components_cons c s Hc). split; reflexivity. }
  rewrite components_cons by reflexivity.
  repeat match goal with
         | |- context [first_component (String ?c ?s)] =>
             rewrite (proj1 (Hstep c s eq_refl))
         | |- context [tl (FS.components (String ?c ?s))] =>
             rewrite (proj2 (Hstep c s eq_refl))
         end.
  reflexivity.
Qed.

(** The first component holds everything up to the first slash. *)
Lemma first_component_spec p :
  if has_directory_part p
  then exists rest, p = first_component p +:+ "/" +:+ rest
  else first_component p = p.
Proof.
  unfold has_directory_part, first_component.
  induction p as [|c p IH]; simpl; [reflexivity|].
  destruct (Ascii.eqb c "/"%char) eqn:Hc.
  - apply Ascii.eqb_eq in Hc. subst c.
    destruct (FS.components p) as [|x xs] eqn:Hp.
    + destruct p; simpl in Hp; [discriminate|].
      destruct (Ascii.eqb _ _); [discriminate|].
      destruct (FS.components p); discriminate.
    + exists p. reflexivity.
  - destruct (FS.components p) as [|x [|y ys]] eqn:Hp; simpl in *.
    + destruct p; simpl in Hp; [discriminate|].
      destruct (Ascii.eqb _ _); [discriminate|].
      destruct (FS.components p); discriminate.
    + congruence.
    + destruct IH as [rest ->]. exists rest. reflexivity.
Qed.

(** X8: the path the upload is written to begins with [temp_], and so does
    its first component.  A request whose file name has no slash gets a
    response only by writing the file of that name in the working
    directory; a request whose file name has a slash gets a response only
    if the working directory holds a directory named by that first
    component. *)
Theorem response_needs_parent_directory (cfg : Config) (r : SignupRequest)
    (f : FS.t) (response : pyval) :
  fst (handle cfg r f) = inr response ->
  str_prefix "temp_" (first_component (temp_filename r)) = true /\
  if has_directory_part (temp_filename r)
  then FS.cwd f ++ [first_component (temp_filename r)] ∈ FS.dirs f
  else fst (FS.open_wb (temp_filename r) f)
       = inr (FS.cwd f ++ [temp_filename r]).
Proof.
  intros Hres.
  assert (exists name, temp_filename r = "temp_" +:+ name) as [name Hname]
    by (unfold temp_filename; eauto).
  assert (first_component (temp_filename r) = "temp_" +:+ first_component name)
    as Hfirst
    by (unfold first_component at 1; rewrite Hname, components_temp; reflexivity).
  split; [rewrite Hfirst; reflexivity|].
  destruct (FS.write_file (temp_filename r) (file (resume r)) f)
    as [e|f1] eqn:Hw.
  { rewrite (proj2 (handle_raises_iff cfg r f e) Hw) in Hres. discriminate. }
  destruct (write_file_inv _ _ _ _ Hw) as (l & Hl & _).
  pose proof (first_component_spec (temp_filename r)) as Hspec.
  pose proof Hl as Hl0.
  rewrite Hfirst in *. unfold has_directory_part in *.
  unfold FS.open_wb, FS.resolve in Hl.
  rewrite Hname in Hl, Hspec, Hl0 |- *.
  rewrite components_temp in Hl, Hspec |- *.
  change (str_prefix "/" ("temp_" +:+ name)) with false in Hl.
  change (FS.is_empty ("temp_" +:+ name)) with false in Hl.
  destruct (FS.has_nul _); [discriminate Hl|].
  destruct (FS.PATH_MAX <=? String.length ("temp_" +:+ name))%nat;
    [discriminate Hl|].
  cbn [FS.walk] in Hl.
  change (FS.is_empty ("temp_" +:+ first_component name)) with false in Hl.
  cbn iota in Hl.
  assert (String.eqb ("temp_" +:+ first_component name) "." = false) as Hdot
    by reflexivity.
  assert (String.eqb ("temp_" +:+ first_component name) ".." = false) as Hdd
    by reflexivity.
  destruct (tl (FS.components name)) as [|c2 rest].
  - cbn [forallb] in Hl. unfold FS.classify in Hl. rewrite Hdot, Hdd in Hl.
    cbn [orb] in Hl.
    destruct (FS.too_long _); [discriminate Hl|].
    destruct (FS.is_dir f _); [discriminate Hl|].
    simpl in Hl. rewrite Hl0. rewrite <- Hspec. exact (eq_sym Hl).
  - destruct (forallb FS.is_empty (c2 :: rest)) eqn:Hall.
    + unfold FS.classify in Hl. rewrite Hdot, Hdd in Hl. discriminate Hl.
    + unfold FS.enter in Hl. rewrite Hdot, Hdd in Hl.
      destruct (FS.too_long _); [discriminate Hl|].
      unfold FS.is_dir in Hl.
      destruct (bool_decide (FS.cwd f ++ ["temp_" +:+ first_component name]
                             ∈ FS.dirs f)) eqn:Hd.
      * apply bool_decide_eq_true in Hd. exact Hd.
      * destruct (FS.is_file f _); discriminate Hl.
Qed.

Lemma response_needs_parent_directory_witness :
  Sample.app_dir ++ ["temp_a"] ∈ FS.dirs Scenario.fs_used.
Proof.
  refine (proj2 (response_needs_parent_directory Scenario.cfg_full
            (Scenario.req_named "a//cv.pdf") Scenario.fs_used
            (envelope Sample.reply_value) _)).
  vm_compute. reflexivity.
Defined.

(** X9: a request calls each service at most once: nothing is retried. *)
Theorem at_most_one_call_each (cfg : Config) (r : SignupRequest) (f : FS.t) :
  (count_events is_post (events (snd (handle cfg r f))) <= 1)%nat /\
  (count_events is_analyze (events (snd (handle cfg r f))) <= 1)%nat.
Proof.
  destruct (handle_trace cfg r f) as [(e & _ & Hev) | (f1 & _ & Hev)];
    rewrite Hev.
  - simpl. lia.
  - rewrite !count_events_app.
    pose proof (try_body_counts cfg r (entry r f1)) as [Hp Ha]. simpl in Hp, Ha.
    destruct (fst (try_body cfg r (entry r f1))); simpl; lia.
Qed.

(** X10: when [GROQ_API_KEY] is unset or empty no chat-completion call is
    made and a stored request is answered with the fallback constant,
    also when the document service is configured and returns text. *)
Theorem no_key_no_call (cfg : Config) (r : SignupRequest) (f : FS.t) :
  truthy_env (GROQ_KEY cfg) = false ->
  (forall url h d res,
     ~ In (HttpPost url h d res) (events (snd (handle cfg r f)))) /\
  (forall f1,
     FS.write_file (temp_filename r) (file (resume r)) f = inr f1 ->
     fst (handle cfg r f) = inr (envelope FALLBACK)).
Proof.
  intros Hk.
  assert (forall url h d res,
            ~ In (HttpPost url h d res) (events (snd (handle cfg r f)))) as Hno.
  { intros url h d res Hin.
    destruct (handle_post cfg r f _ _ _ _ Hin)
      as (f1 & key & text & _ & Hkey & Hkt & _).
    rewrite Hkey in Hk. congruence. }
  split; [exact Hno|].
  intros f1 Hw.
  destruct (handle_saved_returns cfg r f f1 Hw) as (a & Ha & Hres & _ & _ & Hev).
  destruct (try_body_analysis cfg r (entry r f1) FALLBACK eq_refl) as [H|H].
  - rewrite Hres. congruence.
  - destruct H as (url & h & d & resp & ? & ? & ? & Hin & _).
    exfalso. apply (Hno url h d (inr resp)). rewrite Hev.
    apply in_app_iff. left. exact Hin.
Qed.

Lemma no_key_no_call_witness :
  fst (handle Scenario.cfg_azure_only Sample.req_plain Sample.fs_empty)
  = inr (envelope FALLBACK).
Proof.
  refine (proj2 (no_key_no_call Scenario.cfg_azure_only Sample.req_plain
                   Sample.fs_empty eq_refl)
            Sample.stored_plain _).
  vm_compute. reflexivity.
Defined.

(** Data within the size limit are stored whenever the path can be
    opened. *)
Lemma save_fits p data f :
  FS.fits f data = true ->
  FS.save p data f =
    match FS.open_wb p f with
    | (inr l, _) => (inr tt, FS.set_files f (<[l := data]> (FS.files f)))
    | (inl e, _) => (inl e, f)
    end.
Proof.
  intros Hfit. unfold FS.save.
  destruct (FS.open_wb p f) as [[e|l] f1] eqn:Ho.
  - rewrite (open_wb_fails_keeps _ _ _ _ Ho). reflexivity.
  - destruct (open_wb_inv _ _ _ _ Ho) as (_ & _ & ->).
    unfold FS.write, FS.fits, FS.set_files in *. simpl.
    destruct (FS.max_file_size f) as [n|]; rewrite ?insert_insert_eq;
      [|reflexivity].
    apply Nat.leb_le in Hfit.
    destruct (n <? length data)%nat eqn:Hn; [|reflexivity].
    apply Nat.ltb_lt in Hn. lia.
Qed.

(** X11: without a document client the content of the upload is never
    looked at: two requests with the same name, interests and file name,
    both with files within the size limit, have the same outcome whatever
    the two files contain. *)
Theorem upload_bytes_ignored_without_client (cfg : Config)
    (r1 r2 : SignupRequest) (f : FS.t) :
  doc_client cfg = None ->
  full_name r1 = full_name r2 ->
  selected_domains r1 = selected_domains r2 ->
  filename (resume r1) = filename (resume r2) ->
  FS.fits f (file (resume r1)) = true ->
  FS.fits f (file (resume r2)) = true ->
  handle cfg r1 f = handle cfg r2 f.
Proof.
  intros Hc Hn Hd Hf Hfit1 Hfit2.
  assert (temp_filename r1 = temp_filename r2) as Ht
    by (unfold temp_filename; rewrite Hf; reflexivity).
  assert (swept r1 f = swept r2 f) as Hsw by (unfold swept; rewrite Ht; reflexivity).
  pose proof (save_fits (temp_filename r1) _ f Hfit1) as Hs1.
  pose proof (save_fits (temp_filename r2) _ f Hfit2) as Hs2.
  rewrite Ht in Hs1.
  destruct (FS.open_wb (temp_filename r2) f) as [[e|l] f0].
  - assert (FS.write_file (temp_filename r1) (file (resume r1)) f = inl e) as Hw1
      by (apply write_file_save; rewrite Ht, Hs1; reflexivity).
    assert (FS.write_file (temp_filename r2) (file (resume r2)) f = inl e) as Hw2
      by (apply write_file_save; rewrite Hs2; reflexivity).
    rewrite (handle_unsaved cfg r1 f e Hw1), (handle_unsaved cfg r2 f e Hw2).
    rewrite Ht, Hs1, Hs2, Hn. reflexivity.
  - apply write_file_save_ok in Hs2. rewrite <- Ht in Hs1.
    apply write_file_save_ok in Hs1.
    set (f1 := FS.set_files f (<[l := file (resume r1)]> (FS.files f))) in *.
    set (f2 := FS.set_files f (<[l := file (resume r2)]> (FS.files f))) in *.
    destruct (try_body_no_client_blind cfg r1 r2 (entry r1 f1) (entry r2 f2)
                Hc Hn Hd) as (Hr & He & Htx & Ha);
      try (unfold entry; simpl; rewrite ?Hn; reflexivity).
    destruct (try_body_bound cfg r1 (entry r1 f1) FALLBACK eq_refl) as [a Ha1].
    rewrite (handle_saved cfg r1 f f1 a Hs1 Ha1).
    rewrite Ha in Ha1.
    rewrite (handle_saved cfg r2 f f2 a Hs2 Ha1).
    rewrite Hsw, Hr, He, Htx. reflexivity.
Qed.

Lemma upload_bytes_ignored_without_client_witness :
  file (resume Sample.req_plain) <> file (resume Scenario.req_other_bytes) /\
  handle Sample.cfg_groq Sample.req_plain Sample.fs_empty
  = handle Sample.cfg_groq Scenario.req_other_bytes Sample.fs_empty.
Proof.
  split; [discriminate|].
  apply (upload_bytes_ignored_without_client Sample.cfg_groq Sample.req_plain
           Scenario.req_other_bytes Sample.fs_empty); reflexivity.
Defined.

(** X12: over a sequence of requests handled one after the other, each
    with an upload within the size limit, no request leaves a file behind:
    after each request the files are among those present at start, with
    their content, and the directories are the same. *)
Theorem process_leaves_no_files (cfg : Config) (rs : list SignupRequest)
    (f : FS.t) :
  Forall (fun r => FS.fits f (file (resume r)) = true) rs ->
  Forall (fun o => FS.files (fs (snd o)) ⊆ FS.files f /\
                   FS.dirs (fs (snd o)) = FS.dirs f)
         (serve cfg rs f).
Proof.
  revert f. induction rs as [|r rs IH]; intros f Hfit; simpl; [constructor|].
  inversion Hfit as [|? ? Hr Hrs]; subst.
  destruct (handle_fs_frame cfg r f) as (Hdirs & _ & Hmax & _).
  assert (FS.files (fs (snd (handle cfg r f))) ⊆ FS.files f) as Hsub.
  { rewrite handle_fs, (save_fits _ _ _ Hr). unfold swept.
    destruct (FS.write_file (temp_filename r) (file (resume r)) f) as [e|f1] eqn:Hw.
    - apply write_file_save in Hw. rewrite (save_fits _ _ _ Hr) in Hw.
      destruct (FS.open_wb (temp_filename r) f) as [[e1|l1] f0];
        [reflexivity | discriminate].
    - destruct (FS.open_wb (temp_filename r) f) as [[e1|l1] f0];
        [reflexivity | apply delete_subseteq]. }
  constructor; [split; assumption|].
  eapply Forall_impl.
  - apply IH. eapply Forall_impl; [exact Hrs|]. simpl. intros r' Hr'.
    unfold FS.fits in *. rewrite Hmax. exact Hr'.
  - simpl. intros o [Ho1 Ho2]. split.
    + etransitivity; eassumption.
    + congruence.
Qed.

Lemma process_leaves_no_files_witness :
  Forall (fun o => FS.files (fs (snd o)) ⊆ FS.files Scenario.fs_used /\
                   FS.dirs (fs (snd o)) = FS.dirs Scenario.fs_used)
         (serve Scenario.cfg_full [Sample.req_plain; Sample.req_nested]
            Scenario.fs_used).
Proof.
  apply (process_leaves_no_files Scenario.cfg_full
           [Sample.req_plain; Sample.req_nested] Scenario.fs_used).
  repeat constructor.
Defined.

(** X13: every HTTP request the handler sends goes to the fixed Groq
    completions URL, carries the configured key as bearer token, names the
    model [llama-3.3-70b-versatile] and asks for a JSON object. *)
Theorem post_goes_to_groq_with_key (cfg : Config) (r : SignupRequest) (f : FS.t)
    (url : string) (h : list (string * string)) (d : pyval)
    (res : result HttpResponse) :
  In (HttpPost url h d res) (events (snd (handle cfg r f))) ->
  url = "https://api.groq.com/openai/v1/chat/completions" /\
  (exists key,
     GROQ_KEY cfg = Some key /\ key <> EmptyString /\
     h = [("Authorization", "Bearer " +:+ key);
          ("Content-Type", "application/json")]) /\
  getitem_str d "model" = inr (PStr "llama-3.3-70b-versatile") /\
  getitem_str d "response_format" = inr (PDict [("type", PStr "json_object")]) /\
  res = requests_post cfg url h d.
Proof.
  intros Hin.
  destruct (handle_post cfg r f _ _ _ _ Hin)
    as (f1 & key & text & _ & Hk & Hkt & _ & -> & -> & -> & Hres & _).
  split; [reflexivity|]. split.
  - exists key. split; [exact Hk|]. split; [|reflexivity].
    intros ->. discriminate.
  - repeat split. exact Hres.
Qed.

Lemma post_goes_to_groq_with_key_witness :
  exists key, GROQ_KEY Sample.cfg_groq_500 = Some key /\ key <> EmptyString.
Proof.
  destruct (post_goes_to_groq_with_key Sample.cfg_groq_500 Sample.req_plain
              Sample.fs_empty GROQ_URL (groq_headers "gsk_test")
              (groq_data (build_prompt "Student" "[]" RESUME_TEXT_SKIPPED))
              (inr {| status_code := 500; text := "Internal Server Error";
                      json := inl JSONDecodeError |}))
    as (_ & (key & Hk & Hne & _) & _).
  - vm_compute. right. right. left. reflexivity.
  - exists key. split; assumption.
Defined.

(** X14: the success line is printed only for a request whose response
    carries a parsed reply: the trace then holds a call answered with
    status 200 whose message content [json.loads] turned into the
    returned analysis. *)
Theorem success_line_means_parsed (cfg : Config) (r : SignupRequest) (f : FS.t) :
  In (Printed LogGroqSuccess) (events (snd (handle cfg r f))) ->
  exists url h d response api_result raw_text parsed,
    In (HttpPost url h d (inr response)) (events (snd (handle cfg r f))) /\
    status_code response = 200 /\
    json response = inr api_result /\
    message_content api_result = inr (PStr raw_text) /\
    json_loads cfg raw_text = inr parsed /\
    fst (handle cfg r f) = inr (envelope parsed) /\
    and_then (fst (handle cfg r f))
      (fun body => getitem_str body "ai_analysis") = inr parsed.
Proof.
  intros Hin.
  destruct (handle_trace cfg r f) as [(e & _ & Hev) | (f1 & Hw & Hev)].
  { rewrite Hev in Hin. simpl in Hin. destruct Hin as [Hin|[]]. discriminate. }
  assert (In (Printed LogGroqSuccess) (events (snd (try_body cfg r (entry r f1)))))
    as Hin'.
  { rewrite Hev in Hin. apply in_app_iff in Hin. destruct Hin as [Hin|Hin];
      [exact Hin|].
    destruct (fst (try_body cfg r (entry r f1))); simpl in Hin;
      [destruct Hin as [Hin|[]]; discriminate | contradiction]. }
  apply try_body_success_line in Hin'.
  destruct Hin' as [Hin' | (url & h & d & resp & api & raw & parsed
                            & Hp & Hst & Hj & Hm & Hl & _ & Ha)].
  { simpl in Hin'. destruct Hin' as [Hin'|[]]. discriminate. }
  exists url, h, d, resp, api, raw, parsed.
  rewrite (handle_saved cfg r f f1 parsed Hw Ha). simpl.
  repeat split; try assumption.
  apply in_app_iff. left. exact Hp.
Qed.

Lemma success_line_means_parsed_witness :
  exists parsed,
    fst (handle Sample.cfg_groq Sample.req_plain Sample.fs_empty)
    = inr (envelope parsed).
Proof.
  destruct (success_line_means_parsed Sample.cfg_groq Sample.req_plain
              Sample.fs_empty)
    as (_ & _ & _ & _ & _ & _ & parsed & _ & _ & _ & _ & _ & H & _).
  - vm_compute. right. right. right. left. reflexivity.
  - exists parsed. exact H.
Defined.

(** X15: the line of the [except] clause is printed only for a request
    answered with the fallback constant. *)
Theorem except_line_means_fallback (cfg : Config) (r : SignupRequest) (f : FS.t)
    (e : PyExc) :
  In (Printed (LogAIError e)) (events (snd (handle cfg r f))) ->
  fst (handle cfg r f) = inr (envelope FALLBACK).
Proof.
  intros Hin.
  destruct (handle_trace cfg r f) as [(e' & _ & Hev) | (f1 & Hw & Hev)].
  { rewrite Hev in Hin. simpl in Hin. destruct Hin as [Hin|[]]. discriminate. }
  rewrite Hev in Hin. apply in_app_iff in Hin.
  assert (exists e0, fst (try_body cfg r (entry r f1)) = inl e0) as [e0 He0].
  { destruct Hin as [Hin|Hin].
    - apply try_body_no_except_line in Hin. simpl in Hin.
      destruct Hin as [Hin|[]]. discriminate.
    - destruct (fst (try_body cfg r (entry r f1))) as [e0|]; [eauto|].
      simpl in Hin. contradiction. }
  pose proof (try_body_raises_keeps cfg r (entry r f1) FALLBACK e0 eq_refl He0)
    as Ha.
  rewrite (handle_saved cfg r f f1 FALLBACK Hw Ha). reflexivity.
Qed.

Lemma except_line_means_fallback_witness :
  fst (handle Scenario.cfg_groq_no_choice Sample.req_plain Sample.fs_empty)
  = inr (envelope FALLBACK).
Proof.
  apply (except_line_means_fallback Scenario.cfg_groq_no_choice Sample.req_plain
           Sample.fs_empty IndexError).
  vm_compute. right. right. right. left. reflexivity.
Defined.

(** X16: a reply with a status other than 200 is logged with its status
    and body and is not treated as an exception: the line of the [except]
    clause is not printed. *)
Theorem rejected_reply_is_logged (cfg : Config) (r : SignupRequest) (f : FS.t)
    (url : string) (h : list (string * string)) (d : pyval)
    (response : HttpResponse) :
  In (HttpPost url h d (inr response)) (events (snd (handle cfg r f))) ->
  status_code response <> 200 ->
  In (Printed (LogGroqError (status_code response) (text response)))
     (events (snd (handle cfg r f))) /\
  forall e, ~ In (Printed (LogAIError e)) (events (snd (handle cfg r f))).
Proof.
  intros Hin Hst.
  destruct (handle_trace cfg r f) as [(e' & _ & Hev) | (f1 & Hw & Hev)].
  { rewrite Hev in Hin. simpl in Hin. destruct Hin as [Hin|[]]. discriminate. }
  rewrite Hev in *. apply in_app_iff in Hin.
  assert (In (HttpPost url h d (inr response))
             (events (snd (try_body cfg r (entry r f1))))) as Hin'.
  { destruct Hin as [Hin|Hin]; [exact Hin|].
    destruct (fst (try_body cfg r (entry r f1))); simpl in Hin;
      [destruct Hin as [Hin|[]]; discriminate | contradiction]. }
  destruct (try_body_post_rejected cfg r (entry r f1) _ _ _ _ Hin' Hst)
    as [Hold | [Hok Hlog]].
  { simpl in Hold. destruct Hold as [Hold|[]]. discriminate. }
  rewrite Hok. simpl. rewrite app_nil_r. split; [exact Hlog|].
  intros e He. apply try_body_no_except_line in He. simpl in He.
  destruct He as [He|[]]. discriminate.
Qed.

Lemma rejected_reply_is_logged_witness :
  In (Printed (LogGroqError 500 "Internal Server Error"))
     (events (snd (handle Sample.cfg_groq_500 Sample.req_plain Sample.fs_empty))).
Proof.
  refine (proj1 (rejected_reply_is_logged Sample.cfg_groq_500 Sample.req_plain
            Sample.fs_empty GROQ_URL (groq_headers "gsk_test")
            (groq_data (build_prompt "Student" "[]" RESUME_TEXT_SKIPPED))
            {| status_code := 500; text := "Internal Server Error";
               json := inl JSONDecodeError |} _ _)).
  - vm_compute. right. right. left. reflexivity.
  - simpl. lia.
Defined.

(** X17: the whole pipeline end to end: when the upload is stored, the
    extraction stage leaves [text] (the sentinel without a client, the
    service's content with one), a key is configured, and the service
    answers the prompt built from [text] with status 200 and a message
    content that [json.loads] accepts, then that call is in the trace and
    the response carries the parsed value. *)
Theorem pipeline_end_to_end (cfg : Config) (r : SignupRequest) (f f1 : FS.t)
    (key text : string) (response : HttpResponse) (api_result : pyval)
    (raw_text : string) (parsed : pyval) :
  FS.write_file (temp_filename r) (file (resume r)) f = inr f1 ->
  extracted_text cfg (file (resume r)) = inr text ->
  GROQ_KEY cfg = Some key -> key <> EmptyString ->
  requests_post cfg GROQ_URL (groq_headers key)
    (groq_data (build_prompt (full_name r) (selected_domains r) text))
    = inr response ->
  status_code response = 200 ->
  json response = inr api_result ->
  message_content api_result = inr (PStr raw_text) ->
  json_loads cfg raw_text = inr parsed ->
  In (HttpPost GROQ_URL (groq_headers key)
        (groq_data (build_prompt (full_name r) (selected_domains r) text))
        (inr response))
     (events (snd (handle cfg r f))) /\
  fst (handle cfg r f) = inr (envelope parsed) /\
  and_then (fst (handle cfg r f))
    (fun body => getitem_str body "ai_analysis") = inr parsed.
Proof.
  intros Hw Htext Hk Hne Hpost Hst Hj Hm Hl.
  assert (truthy_env (Some key) = true) as Hkt
    by (destruct key; [congruence | reflexivity]).
  assert (In (HttpPost GROQ_URL (groq_headers key)
                (groq_data (build_prompt (full_name r) (selected_domains r) text))
                (inr response))
             (events (snd (handle cfg r f)))) as Hin.
  { destruct (handle_trace cfg r f) as [(e' & Hw' & _) | (f1' & Hw' & Hev)];
      [congruence|].
    assert (f1' = f1) as -> by congruence.
    rewrite Hev. apply in_app_iff. left. rewrite <- Hpost.
    apply (try_body_calls cfg r (entry r f1) RESUME_TEXT_SKIPPED
             (file (resume r)) key text);
      try reflexivity; try assumption.
    - exact (read_after_write _ _ _ _ Hw).
    - unfold extracted_text in Htext. destruct (doc_client cfg); congruence. }
  split; [exact Hin|].
  destruct (handle_post cfg r f _ _ _ _ Hin)
    as (? & ? & ? & _ & _ & _ & _ & _ & _ & _ & _ & Hres & _).
  rewrite Hres. unfold reply_analysis. rewrite Hst, Hj. simpl.
  rewrite (message_content_truthy _ _ Hm), Hm, Hl. split; reflexivity.
Qed.

Lemma pipeline_end_to_end_witness :
  and_then (fst (handle Scenario.cfg_full Sample.req_plain Sample.fs_empty))
    (fun body => getitem_str body "ai_analysis") = inr Sample.reply_value.
Proof.
  refine (proj2 (proj2 (pipeline_end_to_end Scenario.cfg_full Sample.req_plain
            Sample.fs_empty
            Sample.stored_plain
            "gsk_test" Scenario.extracted
            {| status_code := 200; text := Sample.reply_text;
               json := inr Sample.completion |}
            Sample.completion Sample.reply_text Sample.reply_value
            _ _ eq_refl _ eq_refl eq_refl eq_refl _ _))).
  - vm_compute. reflexivity.
  - vm_compute. reflexivity.
  - discriminate.
  - vm_compute. reflexivity.
  - vm_compute. reflexivity.
Defined.

(** Whether an upload can be stored is decided by the directories, the
    working directory and the size limit. *)
Lemma write_file_same_dirs p data f f' f1 :
  FS.dirs f' = FS.dirs f -> FS.cwd f' = FS.cwd f ->
  FS.max_file_size f' = FS.max_file_size f ->
  FS.write_file p data f = inr f1 ->
  exists f1', FS.write_file p data f' = inr f1'.
Proof.
  intros Hd Hc Hm (l & Hl & _ & _ & Hfit & _)%write_file_inv.
  assert (FS.fits f' data = true) as Hfit'
    by (unfold FS.fits in *; rewrite Hm; exact Hfit).
  pose proof (open_wb_same_dirs p f f' l Hd Hc Hl) as Hl'.
  exists (FS.set_files f' (<[l := data]> (FS.files f'))).
  apply write_file_save_ok. rewrite (save_fits _ _ _ Hfit').
  destruct (FS.open_wb p f') as [[e|l'] f0]; simpl in Hl'; [discriminate|].
  injection Hl' as ->. reflexivity.
Qed.

(** The suite sees the filesystem only through the file it reads back. *)
Lemma try_body_reads_only_upload (cfg : Config) r s1 s2 :
  FS.read_file (temp_filename r) (fs s1) = FS.read_file (temp_filename r) (fs s2) ->
  events s1 = events s2 ->
  resume_text s1 = resume_text s2 ->
  ai_analysis s1 = ai_analysis s2 ->
  fst (try_body cfg r s1) = fst (try_body cfg r s2) /\
  events (snd (try_body cfg r s1)) = events (snd (try_body cfg r s2)) /\
  resume_text (snd (try_body cfg r s1)) = resume_text (snd (try_body cfg r s2)) /\
  ai_analysis (snd (try_body cfg r s1)) = ai_analysis (snd (try_body cfg r s2)).
Proof.
  intros Hrd He Ht Ha.
  destruct s1 as [fa ea ta aa], s2 as [fb eb tb ab]. simpl in *. subst.
  unfold_body. simpl.
  repeat (first [rewrite Hrd | case_match]; simplify_eq/=); auto.
Qed.

(** With a regular file where a later request expects a directory, an
    earlier request that removes that file changes which exception the
    later one raises. *)
Example earlier_request_can_change_the_error :
  fst (handle Sample.cfg_bare (Scenario.req_named "a/x")
         Scenario.fs_file_in_the_way)
    = inl (NotADirectoryError "temp_a/x") /\
  fst (handle Sample.cfg_bare (Scenario.req_named "a/x")
         (fs (snd (handle Sample.cfg_bare (Scenario.req_named "a")
                     Scenario.fs_file_in_the_way))))
    = inl (FileNotFoundError "temp_a/x").
Proof. split; vm_compute; reflexivity. Qed.

(** X18: requests do not influence each other through the filesystem:
    whether or not another request was handled before it, a request gets
    the same response or raises in both cases, with the same trace.  Only
    the exception raised may differ. *)
Theorem earlier_request_does_not_matter (cfg : Config) (r0 r : SignupRequest)
    (f : FS.t) :
  same_outcome (fst (handle cfg r (fs (snd (handle cfg r0 f)))))
               (fst (handle cfg r f)) /\
  events (snd (handle cfg r (fs (snd (handle cfg r0 f)))))
  = events (snd (handle cfg r f)).
Proof.
  set (f' := fs (snd (handle cfg r0 f))).
  destruct (handle_fs_frame cfg r0 f) as (Hd & Hc & Hm & _). fold f' in Hd, Hc, Hm.
  destruct (FS.write_file (temp_filename r) (file (resume r)) f')
    as [e1|f1] eqn:Hw1;
  destruct (FS.write_file (temp_filename r) (file (resume r)) f)
    as [e2|f2] eqn:Hw2.
  - rewrite (handle_unsaved cfg r f' e1 Hw1), (handle_unsaved cfg r f e2 Hw2).
    split; [exact I | reflexivity].
  - destruct (write_file_same_dirs _ _ f f' f2 Hd Hc Hm Hw2) as [? H]. congruence.
  - destruct (write_file_same_dirs _ _ f' f f1 (eq_sym Hd) (eq_sym Hc) (eq_sym Hm) Hw1)
      as [? H]. congruence.
  - destruct (try_body_reads_only_upload cfg r (entry r f1) (entry r f2))
      as (Hr & He & _ & Ha); try reflexivity.
    { simpl. rewrite (read_after_write _ _ _ _ Hw1), (read_after_write _ _ _ _ Hw2).
      reflexivity. }
    destruct (try_body_bound cfg r (entry r f1) FALLBACK eq_refl) as [a Ha1].
    rewrite (handle_saved cfg r f' f1 a Hw1 Ha1).
    rewrite Ha in Ha1.
    rewrite (handle_saved cfg r f f2 a Hw2 Ha1).
    simpl. rewrite Hr, He. split; reflexivity.
Qed.

(** X19: when the copy of line 77 fails after [open] created the file, the
    exception leaves the handler before the [try] statement: no service
    is called, nothing is cleaned up, and the file stays with what was
    written up to the limit. *)
Theorem copy_error_escapes (cfg : Config) (r : SignupRequest) (f : FS.t)
    (l : list string) :
  fst (FS.open_wb (temp_filename r) f) = inr l ->
  FS.fits f (file (resume r)) = false ->
  fst (handle cfg r f) = inl (OSError EFBIG) /\
  events (snd (handle cfg r f)) = [Printed (LogProcessing (full_name r))] /\
  exists n,
    FS.max_file_size f = Some n /\ (n < length (file (resume r)))%nat /\
    FS.files (fs (snd (handle cfg r f))) !! l = Some (firstn n (file (resume r))).
Proof.
  intros Hl Hfit.
  unfold FS.fits in Hfit.
  destruct (FS.max_file_size f) as [n|] eqn:Hmax; [|discriminate].
  apply Nat.leb_gt in Hfit.
  assert (FS.save (temp_filename r) (file (resume r)) f =
            (inl (OSError EFBIG),
             FS.set_files f (<[l := firstn n (file (resume r))]> (FS.files f))))
    as Hs.
  { unfold FS.save.
    destruct (FS.open_wb (temp_filename r) f) as [[e|l'] f0] eqn:Ho;
      simpl in Hl; [discriminate|].
    injection Hl as ->.
    destruct (open_wb_inv _ _ _ _ Ho) as (_ & _ & ->).
    unfold FS.write, FS.set_files. simpl. rewrite Hmax.
    apply Nat.ltb_lt in Hfit. rewrite Hfit, insert_insert_eq. reflexivity. }
  assert (FS.write_file (temp_filename r) (file (resume r)) f
          = inl (OSError EFBIG)) as Hw
    by (apply write_file_save; rewrite Hs; reflexivity).
  rewrite (handle_unsaved cfg r f _ Hw), Hs. simpl.
  split; [reflexivity|]. split; [reflexivity|].
  exists n. split; [reflexivity|]. split; [exact Hfit|]. apply lookup_insert_eq.
Qed.

Lemma copy_error_escapes_witness :
  fst (handle Scenario.cfg_full Sample.req_plain Scenario.fs_small)
  = inl (OSError EFBIG).
Proof.
  refine (proj1 (copy_error_escapes Scenario.cfg_full Sample.req_plain
                   Scenario.fs_small (Sample.app_dir ++ ["temp_cv.pdf"]) _ _)).
  - vm_compute. reflexivity.
  - vm_compute. reflexivity.
Defined.
